(** * Aerosol size-distribution discretisation ([aerosol.py])

    A shallow embedding of [dist_to_conc] and of the constructor of
    [AerosolSpecies], followed by the properties of the discretisation.

    Numbers.  The Python code computes with IEEE binary64 floats through
    numpy.  The embedding is written once, over an interface [PyFloat] of the
    arithmetic the source uses, and is instantiated twice:
    - at the real numbers [R] (exact arithmetic), where the analytic
      properties (ordering of the edges, geometric spacing) are proved;
    - at Rocq's primitive binary64 floats, where the concrete examples are
      evaluated bit for bit.
    Facts about the shape of the result (which branch runs, which exception
    is raised, lengths, which expression each attribute holds) are proved for
    every instance of the interface. *)

From Stdlib Require Import Reals Lra Lia List String Bool Sorted Floats Uint63.
From stdpp Require Import gmap strings.
Import ListNotations.

Set Warnings "-inexact-float".

(** ** The arithmetic used by the source *)

Class PyFloat (A : Type) := {
  add : A -> A -> A;
  sub : A -> A -> A;
  mul : A -> A -> A;
  div : A -> A -> A;
  sqrt : A -> A;              (* np.sqrt *)
  log10 : A -> A;             (* np.log10 on a number *)
  pow10 : A -> A;             (* 10 ** x, as np.logspace applies it *)
  of_nat : nat -> A;          (* the integers of np.arange, as floats *)
  is_zero : A -> bool;        (* truth value of [not x] on a number *)
  c0 : A;                     (* 0.0 *)
  c0_5 : A;                   (* 0.5 *)
  c0_9 : A;                   (* 0.9 *)
  c1_1 : A;                   (* 1.1 *)
  c4 : A;                     (* 4. *)
  c6 : A;                     (* 6. *)
  c10 : A;                    (* 10. *)
  c1e6 : A;                   (* 1e6 *)
  c1e_6 : A                   (* 1e-6 *)
}.

Declare Scope py_scope.
Delimit Scope py_scope with py.
Notation "x + y" := (add x y) : py_scope.
Notation "x - y" := (sub x y) : py_scope.
Notation "x * y" := (mul x y) : py_scope.
Notation "x / y" := (div x y) : py_scope.

(** Exact arithmetic. *)
#[export] Instance PyFloat_R : PyFloat R := {|
  add := Rplus; sub := Rminus; mul := Rmult; div := Rdiv;
  sqrt := R_sqrt.sqrt;
  log10 := fun x => (ln x / ln 10)%R;
  pow10 := fun x => Rpower 10 x;
  of_nat := INR;
  is_zero := fun x => if Req_dec_T x 0 then true else false;
  c0 := 0%R; c0_5 := 0.5%R; c0_9 := 0.9%R; c1_1 := 1.1%R;
  c4 := 4%R; c6 := 6%R; c10 := 10%R; c1e6 := 1e6%R; c1e_6 := 1e-6%R
|}.

(** IEEE binary64 arithmetic.  The decimal logarithm and the power come from
    the C library; they are taken as given. *)
Definition PyFloat_binary64 (libm_log10 libm_pow10 : float -> float)
    : PyFloat float := {|
  add := PrimFloat.add; sub := PrimFloat.sub;
  mul := PrimFloat.mul; div := PrimFloat.div;
  sqrt := PrimFloat.sqrt;
  log10 := libm_log10;
  pow10 := libm_pow10;
  of_nat := fun n => PrimFloat.of_uint63 (Uint63.of_Z (Z.of_nat n));
  is_zero := fun x => PrimFloat.eqb x 0%float;
  c0 := 0%float; c0_5 := 0.5%float; c0_9 := 0.9%float; c1_1 := 1.1%float;
  c4 := 4%float; c6 := 6%float; c10 := 10%float;
  c1e6 := 1e6%float; c1e_6 := 1e-6%float
|}.

(** ** Exceptions *)

Inductive exn : Set :=
| ValueError          (* the spec's InvalidConfiguration *)
| TypeError
| KeyError
| IndexError
| UnboundLocalError.  (* a NameError: local variable read before assignment *)

Definition py (T : Type) : Type := (exn + T)%type.
Definition ret {T} (x : T) : py T := inr x.
Definition raise {T} (e : exn) : py T := inl e.
Definition bind {T U} (m : py T) (k : T -> py U) : py U :=
  match m with
  | inl e => inl e
  | inr x => k x
  end.

Notation "'do' x <~ m ; k" := (bind m (fun x => k))
  (at level 10, x name, m at level 100, k at level 200).

(** [l[i]] on a sequence, and the read of a local variable that may not have
    been assigned on the path taken. *)
Definition getitem {T} (l : list T) (i : nat) : py T :=
  match nth_error l i with
  | Some x => ret x
  | None => raise IndexError
  end.

Definition getlast {T} (l : list T) : py T :=   (* l[-1] *)
  match l with
  | [] => raise IndexError
  | x :: l' => ret (List.last l' x)
  end.

Definition read_local {T} (v : option T) : py T :=
  match v with
  | Some x => ret x
  | None => raise UnboundLocalError
  end.

Section Model.
Context {A : Type} {F : PyFloat A}.
Local Open Scope py_scope.

(** ** Distributions

    [lognorm.py] supplies the classes; the embedding keeps the attributes
    [aerosol.py] reads.  [pdf] is the duck-typed method both classes (and any
    object given to [dist_to_conc]) provide. *)

Class HasPdf (D : Type) := pdf : D -> A -> A.

Record Lognorm := { mu : A; sigma : A; lognorm_pdf : A -> A }.
Record MultiModeLognorm :=
  { mus : list A; sigmas : list A; multimode_pdf : A -> A }.

#[export] Instance Lognorm_pdf : HasPdf Lognorm := lognorm_pdf.
#[export] Instance MultiModeLognorm_pdf : HasPdf MultiModeLognorm := multimode_pdf.

(** aerosol.py, lines 15-26. *)
Definition dist_to_conc {D} `{HasPdf D} (dist : D) (r_min r_max : A)
    (rule : string) : A :=
  let pdf := pdf dist in
  let width := r_max - r_min in
  if String.eqb rule "trapezoid" then
    width * c0_5 * (pdf r_max + pdf r_min)
  else if String.eqb rule "simpson" then
    (width / c6) * (pdf r_max + pdf r_min + c4 * pdf (c0_5 * (r_max + r_min)))
  else
    width * pdf (c0_5 * (r_max + r_min)).

(** ** numpy *)

(** [np.sum] of a one-dimensional array. *)
Definition np_sum (l : list A) : A := fold_left add l c0.

(** [np.linspace(start, stop, num)], as numpy computes it:
    [arange(0, num) * step + start] with [step = (stop - start) / (num - 1)],
    the last sample set to [stop]; a single sample is [start]. *)
Definition linspace (start stop : A) (num : nat) : list A :=
  match num with
  | O => []
  | S O => [start]
  | S div_ =>
      let step := (stop - start) / of_nat div_ in
      map (fun i => of_nat i * step + start) (seq 0 div_) ++ [stop]
  end.

(** [np.logspace(start, stop, num)] is [10 ** linspace(start, stop, num)]. *)
Definition logspace (start stop : A) (num : nat) : list A :=
  map pow10 (linspace start stop num).

(** [np.log10] on an argument that may be [None]. *)
Definition np_log10 (x : option A) : py A :=
  match x with
  | None => raise TypeError
  | Some v => ret (log10 v)
  end.

(** [not x] on an argument that is [None] or a number. *)
Definition py_not (x : option A) : bool :=
  match x with
  | None => true
  | Some v => is_zero v
  end.

(** ** The constructor's arguments and the object it builds *)

(** [bins]: an integer count, or a list / array of edges.  Counts are
    natural numbers. *)
Inductive bins_arg :=
| BinsInt (n : nat)
| BinsEdges (edges : list A).

(** [distribution], by the [isinstance] tests of the constructor. *)
Inductive distribution_arg :=
| DDict (d : gmap string (list A))
| DLognorm (l : Lognorm)
| DMultiMode (m : MultiModeLognorm)
| DOther (type_name : string).

(** The attributes of an instance.  [N] is [None] when the attribute was
    never assigned. *)
Record AerosolSpecies := {
  species : string;
  kappa : A;
  rho : option A;
  mw : option A;
  bins : option bins_arg;
  distribution : distribution_arg;
  r_drys : list A;
  rs : list A;
  Nis : list A;
  N : option A;
  nr : nat
}.

(** [zip(rs[:-1], rs[1:])] *)
Definition adjacent (rs : list A) : list (A * A) :=
  combine (removelast rs) (tl rs).

(** Lines 120-124 and 144-147: the decimal logarithms of the bracket. *)
Definition log_bracket (lo hi : A) (r_min r_max : option A) : py (A * A) :=
  if py_not r_min && py_not r_max then
    ret (log10 lo, log10 hi)
  else
    do lr <~ np_log10 r_min;
    do rr <~ np_log10 r_max;
    ret (lr, rr).

(** Lines 117-125 and 141-149: the bin edges [self.rs]. *)
Definition edges (lo hi : A) (b : bins_arg) (r_min r_max : option A)
    : py (list A) :=
  match b with
  | BinsEdges l => ret l
  | BinsInt n =>
      do lrrr <~ log_bracket lo hi r_min r_max;
      ret (logspace (fst lrrr) (snd lrrr) (S n))
  end.

Definition mids_of (rs : list A) : list A :=
  map (fun ab => sqrt (fst ab * snd ab)) (adjacent rs).

Definition trapezoids {D} `{HasPdf D} (dist : D) (rs : list A) : list A :=
  map (fun ab => let a := fst ab in let b := snd ab in
                 c0_5 * (b - a) * (pdf dist a + pdf dist b)) (adjacent rs).

(** What a branch of the constructor leaves in
    [self.r_drys, self.rs, self.Nis, self.N]. *)
Definition branch_result : Type := (list A * list A * list A * option A)%type.

(** Lines 106-110. *)
Definition init_dict (d : gmap string (list A)) : py branch_result :=
  do r_drys_in <~ match d !! "r_drys"%string with
                  | Some l => ret l | None => raise KeyError end;
  let r_drys := map (fun x => x * c1e_6) r_drys_in in
  do r0 <~ getitem r_drys 0;
  let rs := map (fun x => x * c1e6) [r0 * c0_9; r0 * c1_1] in
  do Nis <~ match d !! "Nis"%string with
            | Some l => ret l | None => raise KeyError end;
  let N := np_sum Nis in
  ret (r_drys, rs, Nis, Some N).

(** Lines 112-130. *)
Definition init_lognorm (l : Lognorm) (bins : option bins_arg)
    (r_min r_max : option A) : py branch_result :=
  match bins with
  | None => raise ValueError
  | Some b =>
      do rs <~ edges (mu l / (c10 * sigma l)) (mu l * c10 * sigma l)
                     b r_min r_max;
      let nbins := length rs in
      let mids := firstn nbins (mids_of rs) in
      let Nis := firstn nbins (trapezoids l rs) in
      let r_drys := map (fun x => x * c1e_6) mids in
      ret (r_drys, rs, Nis, None)
  end.

(** Lines 132-152.  [nbins] is a local of the constructor that only the
    [Lognorm] branch assigns; on this path it is read unassigned. *)
Definition init_multimode (m : MultiModeLognorm) (bins : option bins_arg)
    (r_min r_max : option A) : py branch_result :=
  match bins with
  | None => raise ValueError
  | Some b =>
      let nbins : option nat := None in
      do small_mu <~ getitem (mus m) 0;
      do small_sigma <~ getitem (sigmas m) 0;
      do big_mu <~ getlast (mus m);
      do big_sigma <~ getlast (sigmas m);
      do rs <~ edges (small_mu / (c10 * small_sigma))
                     (big_mu * c10 * big_sigma) b r_min r_max;
      let mids_all := mids_of rs in
      do n1 <~ read_local nbins;
      let mids := firstn n1 mids_all in
      let Nis_all := trapezoids m rs in
      do n2 <~ read_local nbins;
      let Nis := firstn n2 Nis_all in
      let r_drys := map (fun x => x * c1e_6) mids in
      ret (r_drys, rs, Nis, None)
  end.

(** [AerosolSpecies.__init__], lines 88-160. *)
Definition AerosolSpecies_init (species : string)
    (distribution : distribution_arg) (kappa : A) (rho mw : option A)
    (bins : option bins_arg) (r_min r_max : option A) : py AerosolSpecies :=
  do br <~ match distribution with
           | DDict d => init_dict d
           | DLognorm l => init_lognorm l bins r_min r_max
           | DMultiMode m => init_multimode m bins r_min r_max
           | DOther _ => raise ValueError
           end;
  let '(r_drys, rs, Nis, N) := br in
  (* Correct to SI units.  Nis: cm**-3 -> m**-3 *)
  let Nis := map (fun x => x * c1e6) Nis in
  let nr := length r_drys in
  ret {| species := species; kappa := kappa; rho := rho; mw := mw;
         bins := bins; distribution := distribution;
         r_drys := r_drys; rs := rs; Nis := Nis; N := N; nr := nr |}.

End Model.

Arguments Lognorm A : clear implicits.
Arguments MultiModeLognorm A : clear implicits.
Arguments AerosolSpecies A : clear implicits.
Arguments bins_arg A : clear implicits.
Arguments distribution_arg A : clear implicits.
Arguments branch_result A : clear implicits.

(** ** Inputs used as examples *)

(** The monodisperse sodium chloride population of the class docstring. *)
Definition nacl_dict {A} (r N0 : A) : gmap string (list A) :=
  <[ "r_drys"%string := [r] ]> (<[ "Nis"%string := [N0] ]> ∅).

(** Two radii against one concentration. *)
Definition uneven_dict {A} (r1 r2 N0 : A) : gmap string (list A) :=
  <[ "r_drys"%string := [r1; r2] ]> (<[ "Nis"%string := [N0] ]> ∅).

(** [aerosol.py] only calls [pdf] on a distribution; the examples take the
    lognormal number density for it. *)
Definition lognormal_density (mu sigma N0 x : R) : R :=
  (N0 / (R_sqrt.sqrt (2 * PI) * ln sigma * x)
   * exp (- (ln x - ln mu) ^ 2 / (2 * ln sigma ^ 2)))%R.

(** [Lognorm(mu=0.05, sigma=2.0, N=300.)], the sulfate of the docstring. *)
Definition sulfate : Lognorm R :=
  {| mu := 0.05%R; sigma := 2%R;
     lognorm_pdf := lognormal_density 0.05 2 300 |}.

(** A two-mode population: modes at 0.05 and 0.5 micrometers. *)
Definition two_modes : MultiModeLognorm R :=
  {| mus := [0.05%R; 0.5%R]; sigmas := [2%R; 1.5%R];
     multimode_pdf := fun x =>
       (lognormal_density 0.05 2 100 x + lognormal_density 0.5 1.5 10 x)%R |}.

(** Bounds from which lines 120-124 compute a bracket without an exception:
    both falsy, or both supplied. *)
Definition bracket_complete {A} {F : PyFloat A} (r_min r_max : option A)
    : Prop :=
  (py_not r_min = true /\ py_not r_max = true)
  \/ exists a b : A, r_min = Some a /\ r_max = Some b.

(** ** Notions of the specification, over exact arithmetic *)

Section SpecNotions.
Local Open Scope R_scope.

(** Strictly increasing, as a property of the whole list. *)
Definition increasing (l : list R) : Prop := StronglySorted Rlt l.

(** The spec's wording for the edges: [n+1] values from [lo] to [hi],
    uniformly spaced on a logarithmic axis, that is, the geometric progression
    [lo * (hi/lo)^(i/n)] for [i = 0..n]. *)
Definition log_uniform_edges (lo hi : R) (n : nat) : list R :=
  map (fun i => lo * Rpower (hi / lo) (INR i / INR n)) (seq 0 (S n)).

(** A bracket the single-mode branch can use: defaulted (both bounds falsy)
    or given in full, positive and in order. *)
Definition bracket_usable (r_min r_max : option R) : Prop :=
  (py_not r_min = true /\ py_not r_max = true)
  \/ exists a b : R, r_min = Some a /\ r_max = Some b /\ 0 < a < b.

End SpecNotions.

(** Bounds on which lines 120-124 apply [np.log10] to [None]: one bound is
    [None] and the other is truthy. *)
Definition one_bound_only {A} {F : PyFloat A} (r_min r_max : option A)
    : Prop :=
  (r_min = None /\ py_not r_max = false)
  \/ (r_max = None /\ py_not r_min = false).

(** ** Binary64: what the C library returns off the domain of [log10]

    [np.log10] and [10 ** x] go to the C library.  On the arguments that
    matter for a non-positive bound its contract is: the logarithm of a zero
    (of either sign) is minus infinity, the logarithm of a negative number is
    NaN, and 10 to the power NaN is NaN. *)
Definition libm_contract (libm_log10 libm_pow10 : float -> float) : Prop :=
  (forall x : float, PrimFloat.eqb x 0 = true -> libm_log10 x = neg_infinity)
  /\ (forall x : float, PrimFloat.ltb x 0 = true -> libm_log10 x = nan)
  /\ libm_pow10 nan = nan.

(** [x <= 0] on a float that is a zero or negative. *)
Definition non_positive (x : float) : bool :=
  (PrimFloat.eqb x 0 || PrimFloat.ltb x 0)%bool.

(** An infinity or a NaN. *)
Definition nonfinite (x : float) : Prop :=
  match Prim2SF x with
  | S754_nan | S754_infinity _ => True
  | S754_zero _ | S754_finite _ _ _ => False
  end.

(** Two functions that meet the contract, as an example. *)
Definition example_log10 (x : float) : float :=
  if PrimFloat.eqb x 0 then neg_infinity
  else if PrimFloat.ltb x 0 then nan
  else x.

Definition example_pow10 (x : float) : float := x.

(** A single-mode distribution over binary64 with a flat density. *)
Definition flat_binary64 : Lognorm float :=
  {| mu := 0.05%float; sigma := 2%float; lognorm_pdf := fun _ => 1%float |}.

(** ** The driver script [test/nenes_gcc_plots.py]

    [make_ammonium_sulfate] (lines 24-48) bins a lognormal population by hand
    and hands the result, as keyword arguments, to the [AerosolSpecies] of
    another module.  The embedding is the dictionary of keyword arguments at
    the point of that call; [Lognorm_new] stands for the constructor
    [Lognorm(mu=, sigma=, N=)] of [lognorm.py].  The script's literals are
    decimal constants, so the embedding is over exact arithmetic. *)

Module NenesGccPlots.

Record ammonium_sulfate_kwargs := {
  Ms : R;
  rho_s : R;
  rho_u : R;
  nu : R;
  epsilon : R;
  rho_p : R;
  distribution : Lognorm R;
  r_drys : list R;
  rs : list R;
  Nis : list R;
  species : string;
  nr : nat
}.

Definition make_ammonium_sulfate (Lognorm_new : R -> R -> R -> Lognorm R)
    (epsilon N0 : R) : ammonium_sulfate_kwargs :=
  let mu := 0.05%R in
  let sigma := 2.0%R in
  let bins := 50%nat in
  let l := 0%nat in
  let r := bins in
  let aerosol_dist := Lognorm_new mu sigma N0 in
  let rs := logspace (log10 (mu / (sigma * 10))%R)
                     (log10 (mu * sigma * 10)%R) (bins + 1) in
  let mids :=
    skipn l (firstn r (map (fun ab => R_sqrt.sqrt (fst ab * snd ab)%R)
                           (adjacent rs))) in
  let Nis :=
    skipn l (firstn r
      (map (fun ab => let a := fst ab in let b := snd ab in
                      (0.5 * (b - a) * (pdf aerosol_dist a + pdf aerosol_dist b))%R)
           (adjacent rs))) in
  let r_drys := map (fun x => (x * 1e-6)%R) mids in
  {| Ms := 0.13214%R;
     rho_s := (1.769 * 1e-3 * 1e6)%R;
     rho_u := (1.769 * 1e-3 * 1e6)%R;
     nu := 3.0%R;
     epsilon := epsilon;
     rho_p := (1.769 * 1e-3 * 1e6)%R;
     distribution := aerosol_dist;
     r_drys := r_drys;
     rs := rs;
     Nis := map (fun x => (x * 1e6)%R) Nis;
     species := "(NH4)2SO4";
     nr := length r_drys |}.

End NenesGccPlots.

(** A constructor that stores its arguments and carries the lognormal
    density, as an example for [Lognorm_new]. *)
Definition Lognorm_of (m s N0 : R) : Lognorm R :=
  {| mu := m; sigma := s; lognorm_pdf := lognormal_density m s N0 |}.

(** A cubic density, for the exactness of the quadrature rules. *)
Definition cubic (c3 c2 c1 c0' x : R) : R :=
  (c3 * x ^ 3 + c2 * x ^ 2 + c1 * x + c0')%R.

(** The integral of [cubic c3 c2 c1 c0'] from [a] to [b]. *)
Definition cubic_integral (c3 c2 c1 c0' a b : R) : R :=
  (c3 * (b ^ 4 - a ^ 4) / 4 + c2 * (b ^ 3 - a ^ 3) / 3
   + c1 * (b ^ 2 - a ^ 2) / 2 + c0' * (b - a))%R.

(** * Properties *)

(** Unfolds the interface at [R], leaving the decimal constants intact. *)
Ltac exact_arith :=
  cbn [add sub mul div sqrt log10 pow10 of_nat is_zero
       c0 c0_5 c0_9 c1_1 c4 c6 c10 c1e6 c1e_6 PyFloat_R] in *.

(** ** The pre-binned branch *)

Section DictBranch.
Context {A : Type} {F : PyFloat A}.
Local Open Scope py_scope.

Lemma nacl_dict_r_drys (r N0 : A) :
  nacl_dict r N0 !! "r_drys"%string = Some [r].
Proof. unfold nacl_dict. apply lookup_insert_eq. Qed.

Lemma nacl_dict_Nis (r N0 : A) :
  nacl_dict r N0 !! "Nis"%string = Some [N0].
Proof.
  unfold nacl_dict.
  rewrite lookup_insert_ne by discriminate.
  apply lookup_insert_eq.
Qed.

(** A dict holding at least one radius under ['r_drys'] and a list under
    ['Nis'] goes through lines 106-110 without an exception. *)
Lemma init_dict_ok (d : gmap string (list A)) r0 rest ns :
  d !! "r_drys"%string = Some (r0 :: rest) ->
  d !! "Nis"%string = Some ns ->
  init_dict d =
    ret (map (fun x => x * c1e_6) (r0 :: rest),
         [r0 * c1e_6 * c0_9 * c1e6; r0 * c1e_6 * c1_1 * c1e6],
         ns, Some (np_sum ns)).
Proof.
  intros Hr HN. unfold init_dict. rewrite Hr, HN. reflexivity.
Qed.

Lemma AerosolSpecies_init_dict species (d : gmap string (list A)) kappa rho mw
    bins r_min r_max r0 rest ns :
  d !! "r_drys"%string = Some (r0 :: rest) ->
  d !! "Nis"%string = Some ns ->
  AerosolSpecies_init species (DDict d) kappa rho mw bins r_min r_max =
    ret {| species := species; kappa := kappa; rho := rho; mw := mw;
           bins := bins; distribution := DDict d;
           r_drys := map (fun x => x * c1e_6) (r0 :: rest);
           rs := [r0 * c1e_6 * c0_9 * c1e6; r0 * c1e_6 * c1_1 * c1e6];
           Nis := map (fun x => x * c1e6) ns;
           N := Some (np_sum ns);
           nr := length (r0 :: rest) |}.
Proof.
  intros Hr HN. unfold AerosolSpecies_init.
  rewrite (init_dict_ok d r0 rest ns Hr HN). cbn.
  rewrite length_map. reflexivity.
Qed.

End DictBranch.

(** ** [dist_to_conc] *)

(** C7.  [dist_to_conc] returns [(r_max-r_min)*0.5*(pdf(r_max)+pdf(r_min))]
    for the rule ['trapezoid'],
    [((r_max-r_min)/6)*(pdf(r_max)+pdf(r_min)+4*pdf(0.5*(r_max+r_min)))] for
    ['simpson'], and [(r_max-r_min)*pdf(0.5*(r_max+r_min))] for every other
    rule string, ['midpoint'] among them; no rule raises.  On a distribution
    whose pdf is constantly 2, over [1, 3], the trapezoid and the Simpson
    rules both return 4: in exact arithmetic and, bit for bit, in binary64. *)
Theorem dist_to_conc_rules :
  (forall (A : Type) (F : PyFloat A) (D : Type) (H : HasPdf D) (dist : D)
          (r_min r_max : A),
      dist_to_conc dist r_min r_max "trapezoid" =
        ((r_max - r_min) * c0_5 * (pdf dist r_max + pdf dist r_min))%py
      /\ dist_to_conc dist r_min r_max "simpson" =
        (((r_max - r_min) / c6) *
         (pdf dist r_max + pdf dist r_min
          + c4 * pdf dist (c0_5 * (r_max + r_min))))%py
      /\ dist_to_conc dist r_min r_max "midpoint" =
        ((r_max - r_min) * pdf dist (c0_5 * (r_max + r_min)))%py
      /\ forall rule : string,
          rule <> "trapezoid"%string -> rule <> "simpson"%string ->
          dist_to_conc dist r_min r_max rule =
            ((r_max - r_min) * pdf dist (c0_5 * (r_max + r_min)))%py)
  /\ (forall (D : Type) (H : HasPdf D) (dist : D),
        (forall r : R, pdf dist r = 2%R) ->
        dist_to_conc dist 1%R 3%R "trapezoid" = 4%R
        /\ dist_to_conc dist 1%R 3%R "simpson" = 4%R)
  /\ (forall (lg pw : float -> float) (D : Type) (H : HasPdf D) (dist : D),
        (forall r : float, pdf dist r = 2%float) ->
        dist_to_conc (F := PyFloat_binary64 lg pw) dist 1%float 3%float
          "trapezoid" = 4%float
        /\ dist_to_conc (F := PyFloat_binary64 lg pw) dist 1%float 3%float
          "simpson" = 4%float).
Proof.
  split; [|split].
  - intros A F D H dist r_min r_max.
    repeat split; try reflexivity.
    intros rule Ht Hs. unfold dist_to_conc.
    apply String.eqb_neq in Ht, Hs. rewrite Ht, Hs. reflexivity.
  - intros D H dist Hpdf. unfold dist_to_conc. cbn.
    rewrite !Hpdf. split; lra.
  - intros lg pw D H dist Hpdf. unfold dist_to_conc. cbn.
    rewrite !Hpdf. split; vm_compute; reflexivity.
Qed.

(** The rules at work on the constant density 2 over [1, 3]. *)
Lemma dist_to_conc_rules_witness :
  dist_to_conc (F := PyFloat_R) (H := fun (c : R) (_ : R) => c) 2%R 1%R 3%R
    "rectangle" = ((3 - 1) * 2)%R
  /\ dist_to_conc (F := PyFloat_R) (H := fun (c : R) (_ : R) => c) 2%R 1%R 3%R
    "simpson" = 4%R.
Proof.
  destruct dist_to_conc_rules as (Hrules & Hreal & _).
  split.
  - destruct (Hrules R PyFloat_R R (fun (c : R) (_ : R) => c) 2%R 1%R 3%R)
      as (_ & _ & _ & Hother).
    apply Hother; discriminate.
  - apply (Hreal R (fun (c : R) (_ : R) => c) 2%R). reflexivity.
Defined.

(** ** The single-mode branch *)

Section LognormBranch.
Context {A : Type} {F : PyFloat A}.
Local Open Scope py_scope.

Lemma length_linspace (start stop : A) num :
  length (linspace start stop num) = num.
Proof.
  destruct num as [|[|d]]; try reflexivity.
  unfold linspace. rewrite length_app, length_map, length_seq. cbn. lia.
Qed.

Lemma length_logspace (start stop : A) num :
  length (logspace start stop num) = num.
Proof. unfold logspace. rewrite length_map. apply length_linspace. Qed.

Lemma adjacent_cons2 (x y : A) l :
  adjacent (x :: y :: l) = (x, y) :: adjacent (y :: l).
Proof. reflexivity. Qed.

Lemma length_adjacent (l : list A) : length (adjacent l) = pred (length l).
Proof.
  induction l as [|x [|y l] IH]; try reflexivity.
  rewrite adjacent_cons2. cbn [length]. rewrite IH. reflexivity.
Qed.

Lemma nth_adjacent (l : list A) (i : nat) (d : A) :
  (S i < length l)%nat ->
  nth i (adjacent l) (d, d) = (nth i l d, nth (S i) l d).
Proof.
  revert i. induction l as [|x [|y l] IH]; intros i Hi; cbn in Hi; try lia.
  rewrite adjacent_cons2. destruct i as [|i]; [reflexivity|].
  cbn [nth]. rewrite IH by (cbn; lia). reflexivity.
Qed.

Lemma adjacent_map_seq (e : nat -> A) (a n : nat) :
  adjacent (map e (seq a (S n))) = map (fun i => (e i, e (S i))) (seq a n).
Proof.
  revert a. induction n as [|n IH]; intros a; [reflexivity|].
  change (seq a (S (S n))) with (a :: S a :: seq (S (S a)) n).
  cbn [map]. rewrite adjacent_cons2.
  change (map (fun i => (e i, e (S i))) (seq a (S n)))
    with ((e a, e (S a)) :: map (fun i => (e i, e (S i))) (seq (S a) n)).
  f_equal. apply (IH (S a)).
Qed.

Lemma length_mids_of (l : list A) : length (mids_of l) = pred (length l).
Proof. unfold mids_of. rewrite length_map. apply length_adjacent. Qed.

Lemma length_trapezoids {D} `{HasPdf A D} (dist : D) (l : list A) :
  length (trapezoids dist l) = pred (length l).
Proof. unfold trapezoids. rewrite length_map. apply length_adjacent. Qed.

Lemma nth_mids_of (l : list A) (i : nat) (d : A) :
  (S i < length l)%nat ->
  nth i (mids_of l) (sqrt (d * d)) = sqrt (nth i l d * nth (S i) l d).
Proof.
  intros Hi. unfold mids_of.
  change (sqrt (d * d)) with ((fun ab : A * A => sqrt (fst ab * snd ab)) (d, d)).
  rewrite map_nth, nth_adjacent by assumption. reflexivity.
Qed.

(** Lines 127-130 keep every bin: the slices [[0:nbins]] cut nothing. *)
Lemma init_lognorm_edges (l : Lognorm A) b r_min r_max edges_ :
  edges (mu l / (c10 * sigma l)) (mu l * c10 * sigma l) b r_min r_max
    = ret edges_ ->
  init_lognorm l (Some b) r_min r_max =
    ret (map (fun x => x * c1e_6) (mids_of edges_), edges_,
         trapezoids l edges_, None).
Proof.
  intros He. unfold init_lognorm. rewrite He. cbn.
  rewrite !firstn_all2; [reflexivity| |].
  - rewrite length_trapezoids. lia.
  - rewrite length_mids_of. lia.
Qed.

Lemma AerosolSpecies_init_lognorm species (l : Lognorm A) kappa rho mw b
    r_min r_max edges_ :
  edges (mu l / (c10 * sigma l)) (mu l * c10 * sigma l) b r_min r_max
    = ret edges_ ->
  AerosolSpecies_init species (DLognorm l) kappa rho mw (Some b) r_min r_max =
    ret {| species := species; kappa := kappa; rho := rho; mw := mw;
           bins := Some b; distribution := DLognorm l;
           r_drys := map (fun x => x * c1e_6) (mids_of edges_);
           rs := edges_;
           Nis := map (fun x => x * c1e6) (trapezoids l edges_);
           N := None;
           nr := pred (length edges_) |}.
Proof.
  intros He. unfold AerosolSpecies_init.
  rewrite (init_lognorm_edges l b r_min r_max edges_ He). cbn.
  rewrite length_map, length_mids_of. reflexivity.
Qed.

(** The two ways through lines 120-124 that do not raise. *)
Lemma log_bracket_default (lo hi : A) r_min r_max :
  py_not r_min = true -> py_not r_max = true ->
  log_bracket lo hi r_min r_max = ret (log10 lo, log10 hi).
Proof. intros H1 H2. unfold log_bracket. rewrite H1, H2. reflexivity. Qed.

Lemma log_bracket_explicit (lo hi a b : A) :
  is_zero a && is_zero b = false ->
  log_bracket lo hi (Some a) (Some b) = ret (log10 a, log10 b).
Proof. intros H. unfold log_bracket. cbn. rewrite H. reflexivity. Qed.

Lemma edges_of_bracket (lo hi : A) n r_min r_max lr rr :
  log_bracket lo hi r_min r_max = ret (lr, rr) ->
  edges lo hi (BinsInt n) r_min r_max = ret (logspace lr rr (S n)).
Proof. intros Hb. unfold edges. rewrite Hb. reflexivity. Qed.

Lemma log_bracket_complete (lo hi : A) r_min r_max :
  bracket_complete r_min r_max ->
  exists lr rr, log_bracket lo hi r_min r_max = ret (lr, rr).
Proof.
  intros [[H1 H2]|(a & b & -> & ->)].
  - do 2 eexists. apply log_bracket_default; assumption.
  - unfold log_bracket. cbn.
    destruct (is_zero a && is_zero b); do 2 eexists; reflexivity.
Qed.

End LognormBranch.

(** ** Exact arithmetic: ordering and spacing of the edges *)

Section ExactArithmetic.
Local Open Scope R_scope.

Lemma ln10_pos : 0 < ln 10.
Proof. rewrite <- ln_1. apply ln_increasing; lra. Qed.

Lemma log10_lt (a b : R) : 0 < a -> a < b -> log10 a < log10 b.
Proof.
  intros Ha Hab. cbn. pose proof ln10_pos.
  apply Rmult_lt_compat_r; [apply Rinv_0_lt_compat; assumption|].
  apply ln_increasing; assumption.
Qed.

Lemma pow10_lt (x y : R) : x < y -> pow10 x < pow10 y.
Proof. intros Hxy. cbn. apply Rpower_lt; lra. Qed.

Lemma pow10_pos (x : R) : 0 < pow10 x.
Proof. cbn. unfold Rpower. apply exp_pos. Qed.

Lemma is_zero_R_false (x : R) : x <> 0 -> is_zero x = false.
Proof. intros Hx. cbn. destruct (Req_dec_T x 0); [contradiction|reflexivity]. Qed.

Lemma is_zero_R_true (x : R) : is_zero x = true <-> x = 0.
Proof. cbn. destruct (Req_dec_T x 0); split; intros; congruence. Qed.

(** In exact arithmetic the last sample of [linspace] is the value the
    formula of the other samples gives. *)
Lemma linspace_R (lr rr : R) (n : nat) :
  linspace lr rr (S n) =
    map (fun i => INR i * ((rr - lr) / INR n) + lr) (seq 0 (S n)).
Proof.
  destruct n as [|n].
  - cbn. f_equal. ring.
  - unfold linspace. rewrite (seq_S (S n) 0), map_app. cbn [add mul sub div of_nat PyFloat_R].
    f_equal. cbn [map Nat.add]. f_equal.
    pose proof (pos_INR n). rewrite S_INR. field. lra.
Qed.

Lemma logspace_R (lr rr : R) (n : nat) :
  logspace lr rr (S n) =
    map (fun i => Rpower 10 (INR i * ((rr - lr) / INR n) + lr)) (seq 0 (S n)).
Proof. unfold logspace. rewrite linspace_R, map_map. reflexivity. Qed.

(** numpy's [logspace] over the decimal logarithms of a positive bracket is
    the geometric progression of the spec. *)
Lemma logspace_log_uniform (lo hi : R) (n : nat) :
  0 < lo -> 0 < hi ->
  logspace (log10 lo) (log10 hi) (S n) = log_uniform_edges lo hi n.
Proof.
  intros Hlo Hhi. rewrite logspace_R. unfold log_uniform_edges.
  apply map_ext. intros i. cbn [log10 PyFloat_R].
  pose proof ln10_pos as H10.
  assert (Hln : ln (hi / lo) = ln hi - ln lo).
  { unfold Rdiv. rewrite ln_mult, ln_Rinv; try assumption; [ring|].
    apply Rinv_0_lt_compat. assumption. }
  unfold Rpower. rewrite Hln.
  set (E := exp (INR i / INR n * (ln hi - ln lo))).
  replace (lo * E) with (exp (ln lo) * E) by (rewrite exp_ln; auto).
  unfold E. rewrite <- exp_plus. f_equal.
  destruct (Req_dec_T (INR n) 0) as [Hn|Hn].
  - rewrite Hn. unfold Rdiv. rewrite !Rinv_0. field. lra.
  - field. split; lra.
Qed.

Lemma StronglySorted_map_seq (g : nat -> R) (a k : nat) :
  (forall i j : nat, (a <= i < j)%nat -> (j < a + k)%nat -> g i < g j) ->
  increasing (map g (seq a k)).
Proof.
  revert a. induction k as [|k IH]; intros a Hg; [constructor|].
  cbn [seq map]. constructor.
  - apply IH. intros i j Hij Hj. apply Hg; lia.
  - apply List.Forall_forall. intros y Hy.
    apply List.in_map_iff in Hy as (j & <- & Hj).
    apply List.in_seq in Hj. apply Hg; lia.
Qed.

Lemma logspace_increasing (lr rr : R) (n : nat) :
  lr < rr -> increasing (logspace lr rr (S n)).
Proof.
  intros Hlt. rewrite logspace_R.
  apply StronglySorted_map_seq. intros i j Hij Hj.
  apply Rpower_lt; [lra|].
  assert (Hn : 0 < INR n) by (apply lt_0_INR; lia).
  assert (Hstep : 0 < (rr - lr) / INR n)
    by (apply Rdiv_lt_0_compat; lra).
  assert (Hlt' : INR i < INR j) by (apply lt_INR; lia).
  nra.
Qed.

Lemma mids_increasing (e : nat -> R) (n : nat) :
  (forall i, 0 < e i) ->
  (forall i j : nat, (i < j <= n)%nat -> e i < e j) ->
  increasing (map (fun x => x * c1e_6) (mids_of (map e (seq 0 (S n))))).
Proof.
  intros Hpos Hinc. unfold mids_of.
  rewrite adjacent_map_seq, !map_map. cbn [fst snd].
  apply StronglySorted_map_seq. intros i j Hij Hj.
  cbn [mul sqrt c1e_6 PyFloat_R].
  apply Rmult_lt_compat_r; [lra|].
  apply sqrt_lt_1_alt.
  pose proof (Hpos i). pose proof (Hpos (S i)).
  assert (e i < e j) by (apply Hinc; lia).
  assert (e (S i) < e (S j)) by (apply Hinc; lia).
  nra.
Qed.

Lemma mids_logspace_increasing (lr rr : R) (n : nat) :
  lr < rr ->
  increasing (map (fun x => x * c1e_6) (mids_of (logspace lr rr (S n)))).
Proof.
  intros Hlt. rewrite logspace_R.
  apply mids_increasing.
  - intros i. unfold Rpower. apply exp_pos.
  - intros i j Hij.
    apply Rpower_lt; [lra|].
    assert (Hn : 0 < INR n) by (apply lt_0_INR; lia).
    assert (Hstep : 0 < (rr - lr) / INR n)
      by (apply Rdiv_lt_0_compat; lra).
    assert (Hlt' : INR i < INR j) by (apply lt_INR; lia).
    nra.
Qed.

End ExactArithmetic.

(** ** The pre-binned dict: what the constructor stores *)

(** C1 (as the code has it).  Constructing from
    [{'r_drys': [0.25], 'Nis': [1000.0]}] with [kappa = 0.2] yields
    [r_drys == [0.25e-6]], [nr == 1] and [Nis == [1e9]]: the final
    multiplication by 1e6 (line 159) follows the whole [if] chain and so
    applies to the dict variant as well.  Shown in exact arithmetic and, bit
    for bit, in binary64. *)
Theorem nacl_example :
  (exists s : AerosolSpecies R,
      AerosolSpecies_init "NaCl" (DDict (nacl_dict 0.25 1000)%R) 0.2%R
        None None None None None = inr s
      /\ r_drys s = [0.25e-6%R] /\ Nis s = [1e9%R] /\ nr s = 1%nat)
  /\ (forall lg pw : float -> float,
      exists s : AerosolSpecies float,
        AerosolSpecies_init (F := PyFloat_binary64 lg pw) "NaCl"
          (DDict (nacl_dict 0.25 1000)%float) 0.2%float
          None None None None None = inr s
        /\ r_drys s = [0.25e-6%float] /\ Nis s = [1e9%float] /\ nr s = 1%nat).
Proof.
  split; [|intros lg pw];
    (eexists; split;
     [apply AerosolSpecies_init_dict;
      [apply nacl_dict_r_drys | apply nacl_dict_Nis]|]);
    cbn [r_drys Nis nr map length].
  - repeat split; f_equal; exact_arith; lra.
  - repeat split.
Qed.

(** The concentrations do not come out as given. *)
Lemma nacl_example_Nis_not_as_given :
  (~ exists s : AerosolSpecies R,
       AerosolSpecies_init "NaCl" (DDict (nacl_dict 0.25 1000)%R) 0.2%R
         None None None None None = inr s
       /\ r_drys s = [0.25e-6%R] /\ Nis s = [1000%R]
       /\ N s = Some 1000%R /\ nr s = 1%nat)
  /\ (forall lg pw : float -> float,
       ~ exists s : AerosolSpecies float,
         AerosolSpecies_init (F := PyFloat_binary64 lg pw) "NaCl"
           (DDict (nacl_dict 0.25 1000)%float) 0.2%float
           None None None None None = inr s
         /\ r_drys s = [0.25e-6%float] /\ Nis s = [1000%float]
         /\ N s = Some 1000%float /\ nr s = 1%nat).
Proof.
  split; [|intros lg pw]; intros (s & Hs & _ & HNis & _);
    rewrite (AerosolSpecies_init_dict _ _ _ _ _ _ _ _ _ _ _
               (nacl_dict_r_drys _ _) (nacl_dict_Nis _ _)) in Hs;
    apply (f_equal (fun r => match r with inr s => Nis s | inl _ => [] end))
      in Hs;
    cbn [ret Nis map] in Hs; rewrite <- Hs in HNis.
  - apply (f_equal (hd 0%R)) in HNis. cbn [hd] in HNis. exact_arith. lra.
  - apply (f_equal (fun l => PrimFloat.eqb (hd 0%float l) 1000%float)) in HNis.
    vm_compute in HNis. discriminate HNis.
Qed.

(** C2 (the code at the failing inputs).  For the dict of the docstring the
    constructor stores [N = 1000.0], the sum taken on line 110 before the
    unit correction, while the final [Nis] sums to [1e9]; for a [Lognorm]
    distribution with an integer bin count and no bounds the object is built
    and [N] is never assigned. *)
Theorem N_against_sum_of_Nis :
  (exists s : AerosolSpecies R,
      AerosolSpecies_init "NaCl" (DDict (nacl_dict 0.25 1000)%R) 0.2%R
        None None None None None = inr s
      /\ N s = Some 1000%R /\ np_sum (Nis s) = 1e9%R
      /\ N s <> Some (np_sum (Nis s)))
  /\ (forall lg pw : float -> float,
      exists s : AerosolSpecies float,
        AerosolSpecies_init (F := PyFloat_binary64 lg pw) "NaCl"
          (DDict (nacl_dict 0.25 1000)%float) 0.2%float
          None None None None None = inr s
        /\ N s = Some 1000%float
        /\ np_sum (F := PyFloat_binary64 lg pw) (Nis s) = 1e9%float)
  /\ (forall (A : Type) (F : PyFloat A) species (l : Lognorm A) kappa rho mw
             (n : nat),
      exists s : AerosolSpecies A,
        AerosolSpecies_init species (DLognorm l) kappa rho mw
          (Some (BinsInt n)) None None = inr s
        /\ N s = None).
Proof.
  split; [|split].
  - eexists; split;
      [apply AerosolSpecies_init_dict;
       [apply nacl_dict_r_drys | apply nacl_dict_Nis]|].
    cbn [N Nis np_sum map fold_left]. exact_arith.
    repeat split; try (f_equal; lra).
    intros H. injection H as H. lra.
  - intros lg pw. eexists; split;
      [apply AerosolSpecies_init_dict;
       [apply nacl_dict_r_drys | apply nacl_dict_Nis]|].
    split; reflexivity.
  - intros A F species l kappa rho mw n.
    eexists; split; [apply AerosolSpecies_init_lognorm; reflexivity|].
    reflexivity.
Qed.

(** C8.  For a dict with at least one dry radius the edges are the two
    values computed on line 108 from the first radius [r0] alone: in every
    arithmetic [[r0*1e-6*0.9*1e6, r0*1e-6*1.1*1e6]], which in exact arithmetic
    is [[0.9*r0, 1.1*r0]], and equally [[r_drys[0]*0.9e6, r_drys[0]*1.1e6]]
    over the stored radii; the other radii play no part. *)
Theorem dict_edges_from_first_radius :
  (forall (A : Type) (F : PyFloat A) species (d : gmap string (list A))
          kappa rho mw bins r_min r_max (r0 : A) (rest ns : list A),
      d !! "r_drys"%string = Some (r0 :: rest) ->
      d !! "Nis"%string = Some ns ->
      exists s : AerosolSpecies A,
        AerosolSpecies_init species (DDict d) kappa rho mw bins r_min r_max
          = inr s
        /\ rs s = [r0 * c1e_6 * c0_9 * c1e6; r0 * c1e_6 * c1_1 * c1e6]%py
        /\ nth_error (r_drys s) 0 = Some (r0 * c1e_6)%py)
  /\ (forall species (d : gmap string (list R)) kappa rho mw bins r_min r_max
             (r0 : R) (rest ns : list R),
      d !! "r_drys"%string = Some (r0 :: rest) ->
      d !! "Nis"%string = Some ns ->
      exists s : AerosolSpecies R,
        AerosolSpecies_init species (DDict d) kappa rho mw bins r_min r_max
          = inr s
        /\ rs s = [0.9 * r0; 1.1 * r0]%R
        /\ exists rd0 : R,
            nth_error (r_drys s) 0 = Some rd0
            /\ rs s = [rd0 * 0.9e6; rd0 * 1.1e6]%R).
Proof.
  split.
  - intros A F species d kappa rho mw bins r_min r_max r0 rest ns Hr HN.
    eexists; split; [apply (AerosolSpecies_init_dict _ _ _ _ _ _ _ _ _ _ _ Hr HN)|].
    split; reflexivity.
  - intros species d kappa rho mw bins r_min r_max r0 rest ns Hr HN.
    eexists; split; [apply (AerosolSpecies_init_dict _ _ _ _ _ _ _ _ _ _ _ Hr HN)|].
    cbn [rs r_drys map nth_error]. exact_arith.
    split; [f_equal; [|f_equal]; lra|].
    eexists; split; [reflexivity|]. f_equal; [|f_equal]; lra.
Qed.

(** Two radii, 0.1 and 0.2 micrometers: the edges are 0.09 and 0.11. *)
Lemma dict_edges_from_first_radius_witness :
  exists s : AerosolSpecies R,
    AerosolSpecies_init "NaCl" (DDict (uneven_dict 0.1 0.2 1000)%R) 0.2%R
      None None None None None = inr s
    /\ rs s = [0.9 * 0.1; 1.1 * 0.1]%R
    /\ exists rd0 : R,
        nth_error (r_drys s) 0 = Some rd0
        /\ rs s = [rd0 * 0.9e6; rd0 * 1.1e6]%R.
Proof.
  apply (proj2 dict_edges_from_first_radius "NaCl"%string
           (uneven_dict 0.1 0.2 1000)%R 0.2%R None None None None None
           0.1%R [0.2%R] [1000%R]).
  - reflexivity.
  - reflexivity.
Defined.

(** In binary64 the same two expressions, rounded at each operation: for
    the radius 0.25 the edges are 0.22499999999999998 and
    0.27500000000000002. *)
Remark dict_edges_binary64 :
  forall lg pw : float -> float,
  exists s : AerosolSpecies float,
    AerosolSpecies_init (F := PyFloat_binary64 lg pw) "NaCl"
      (DDict (nacl_dict 0.25 1000)%float) 0.2%float
      None None None None None = inr s
    /\ rs s = [0.22499999999999998%float; 0.27500000000000002%float].
Proof.
  intros lg pw. eexists; split;
    [apply AerosolSpecies_init_dict;
     [apply nacl_dict_r_drys | apply nacl_dict_Nis]|].
  reflexivity.
Qed.

(** C10.  The dict branch never compares the two lists: whatever their
    lengths, construction succeeds, [nr] and [r_drys] take the length of the
    list of radii and [Nis] keeps the length of the list of concentrations. *)
Theorem dict_lengths_unchecked :
  forall (A : Type) (F : PyFloat A) species (d : gmap string (list A))
         kappa rho mw bins r_min r_max (r0 : A) (rest ns : list A),
    d !! "r_drys"%string = Some (r0 :: rest) ->
    d !! "Nis"%string = Some ns ->
    exists s : AerosolSpecies A,
      AerosolSpecies_init species (DDict d) kappa rho mw bins r_min r_max
        = inr s
      /\ nr s = length (r0 :: rest)
      /\ length (r_drys s) = length (r0 :: rest)
      /\ length (Nis s) = length ns.
Proof.
  intros A F species d kappa rho mw bins r_min r_max r0 rest ns Hr HN.
  eexists; split; [apply (AerosolSpecies_init_dict _ _ _ _ _ _ _ _ _ _ _ Hr HN)|].
  cbn [nr r_drys Nis]. rewrite !length_map. repeat split.
Qed.

(** Two radii against one concentration: [nr = 2], one entry in [Nis]. *)
Lemma dict_lengths_unchecked_witness :
  exists s : AerosolSpecies R,
    AerosolSpecies_init "NaCl" (DDict (uneven_dict 0.1 0.2 1000)%R) 0.2%R
      None None None None None = inr s
    /\ nr s = 2%nat /\ length (r_drys s) = 2%nat /\ length (Nis s) = 1%nat.
Proof.
  apply (dict_lengths_unchecked R PyFloat_R "NaCl"%string
           (uneven_dict 0.1 0.2 1000)%R 0.2%R None None None None None
           0.1%R [0.2%R] [1000%R]).
  - reflexivity.
  - reflexivity.
Defined.

(** ** Which exception, and when *)

Section Exceptions.
Context {A : Type} {F : PyFloat A}.
Local Open Scope py_scope.

Lemma init_dict_not_ValueError (d : gmap string (list A)) :
  init_dict d <> inl ValueError.
Proof.
  unfold init_dict.
  destruct (d !! "r_drys"%string) as [[|r0 rest]|]; cbn; try discriminate.
  destruct (d !! "Nis"%string); cbn; discriminate.
Qed.

Lemma np_log10_error (x : option A) e : np_log10 x = inl e -> e = TypeError.
Proof. destruct x; cbn; intros H; [discriminate|]. injection H as <-. reflexivity. Qed.

Lemma log_bracket_error (lo hi : A) r_min r_max e :
  log_bracket lo hi r_min r_max = inl e -> e = TypeError.
Proof.
  unfold log_bracket.
  destruct (py_not r_min && py_not r_max); [discriminate|].
  destruct r_min, r_max; cbn; intros H; try discriminate;
    injection H as <-; reflexivity.
Qed.

Lemma edges_error (lo hi : A) b r_min r_max e :
  edges lo hi b r_min r_max = inl e -> e = TypeError.
Proof.
  destruct b as [n|l]; cbn; [|discriminate].
  destruct (log_bracket lo hi r_min r_max) as [e'|p] eqn:Hb; cbn;
    [|discriminate].
  intros H. injection H as <-. eapply log_bracket_error, Hb.
Qed.

Lemma init_lognorm_not_ValueError (l : Lognorm A) b r_min r_max :
  init_lognorm l (Some b) r_min r_max <> inl ValueError.
Proof.
  unfold init_lognorm.
  destruct (edges _ _ b r_min r_max) as [e|rs0] eqn:He; cbn; [|discriminate].
  apply edges_error in He. subst e. discriminate.
Qed.

(** With [bins] given, lines 132-152 always end in an exception: at the
    latest, the read of [nbins] on line 150. *)
Lemma init_multimode_raises (m : MultiModeLognorm A) b r_min r_max :
  exists e, init_multimode m (Some b) r_min r_max = inl e /\ e <> ValueError.
Proof.
  unfold init_multimode, getitem, getlast.
  destruct (mus m) as [|mu0 mus']; cbn;
    [eexists; split; [reflexivity|discriminate]|].
  destruct (sigmas m) as [|s0 sigmas']; cbn;
    [eexists; split; [reflexivity|discriminate]|].
  destruct (edges _ _ b r_min r_max) as [e|rs0] eqn:He; cbn.
  - apply edges_error in He. subst e.
    eexists; split; [reflexivity|discriminate].
  - eexists; split; [reflexivity|discriminate].
Qed.

Lemma init_multimode_unbound (m : MultiModeLognorm A) n r_min r_max
    mu0 mus' s0 sigmas' :
  mus m = mu0 :: mus' -> sigmas m = s0 :: sigmas' ->
  bracket_complete r_min r_max ->
  init_multimode m (Some (BinsInt n)) r_min r_max = inl UnboundLocalError.
Proof.
  intros Hm Hs Hbr. unfold init_multimode, getitem, getlast.
  rewrite Hm, Hs. cbn [nth_error bind ret].
  match goal with
  | |- context [edges ?lo ?hi _ _ _] =>
      destruct (log_bracket_complete lo hi r_min r_max Hbr) as (lr & rr & Hb);
      rewrite (edges_of_bracket lo hi n r_min r_max lr rr Hb)
  end.
  reflexivity.
Qed.

Lemma init_multimode_one_bound (m : MultiModeLognorm A) n x
    mu0 mus' s0 sigmas' :
  mus m = mu0 :: mus' -> sigmas m = s0 :: sigmas' ->
  is_zero x = false ->
  init_multimode m (Some (BinsInt n)) (Some x) None = inl TypeError
  /\ init_multimode m (Some (BinsInt n)) None (Some x) = inl TypeError.
Proof.
  intros Hm Hs Hx. unfold init_multimode, getitem, getlast, edges, log_bracket.
  rewrite Hm, Hs. cbn. rewrite Hx. cbn. split; reflexivity.
Qed.

(** The constructor fails exactly as the branch it dispatches to. *)
Lemma AerosolSpecies_init_raises species dist kappa rho mw bins r_min r_max e :
  AerosolSpecies_init species dist kappa rho mw bins r_min r_max = inl e <->
  match dist with
  | DDict d => init_dict d
  | DLognorm l => init_lognorm l bins r_min r_max
  | DMultiMode m => init_multimode m bins r_min r_max
  | DOther _ => raise ValueError
  end = inl e.
Proof.
  unfold AerosolSpecies_init.
  match goal with |- context [bind ?b _] => destruct b as [e'|[[[? ?] ?] ?]] end;
    cbn; split; intros H; try discriminate; injection H as ->; reflexivity.
Qed.

Lemma one_bound_TypeError (lo hi x : A) :
  is_zero x = false ->
  log_bracket lo hi (Some x) None = inl TypeError
  /\ log_bracket lo hi None (Some x) = inl TypeError.
Proof.
  intros Hx. unfold log_bracket. cbn. rewrite Hx. cbn. split; reflexivity.
Qed.

End Exceptions.

(** C3 (the code at the failing input).  A [MultiModeLognorm] with [bins]
    given never yields an object: whatever the modes, the bin count and the
    bounds, the constructor ends in an exception other than [ValueError].
    With at least one mode, an integer bin count and bounds both falsy or
    both supplied, the edges are computed and the read of the unassigned
    local [nbins] on line 150 raises [UnboundLocalError]; so it is for two
    modes, ten bins and no bounds. *)
Theorem multimode_never_constructs :
  (forall (A : Type) (F : PyFloat A) species (m : MultiModeLognorm A)
          kappa rho mw (b : bins_arg A) r_min r_max,
      exists e : exn,
        AerosolSpecies_init species (DMultiMode m) kappa rho mw (Some b)
          r_min r_max = inl e
        /\ e <> ValueError)
  /\ (forall (A : Type) (F : PyFloat A) species (m : MultiModeLognorm A)
             kappa rho mw (n : nat) r_min r_max (mu0 s0 : A)
             (mus' sigmas' : list A),
      mus m = mu0 :: mus' -> sigmas m = s0 :: sigmas' ->
      bracket_complete r_min r_max ->
      AerosolSpecies_init species (DMultiMode m) kappa rho mw
        (Some (BinsInt n)) r_min r_max = inl UnboundLocalError)
  /\ AerosolSpecies_init "sulfate" (DMultiMode two_modes) 0.6%R None None
       (Some (BinsInt 10)) None None = inl UnboundLocalError.
Proof.
  split; [|split].
  - intros A F species m kappa rho mw b r_min r_max.
    destruct (init_multimode_raises m b r_min r_max) as (e & He & Hne).
    exists e. split; [|exact Hne].
    apply AerosolSpecies_init_raises. exact He.
  - intros A F species m kappa rho mw n r_min r_max mu0 s0 mus' sigmas'
      Hm Hs Hbr.
    apply AerosolSpecies_init_raises.
    apply (init_multimode_unbound m n r_min r_max mu0 mus' s0 sigmas');
      assumption.
  - apply AerosolSpecies_init_raises.
    apply (init_multimode_unbound two_modes 10 None None
             0.05%R [0.5%R] 2%R [1.5%R]); try reflexivity.
    left. split; reflexivity.
Qed.

(** Two modes with the bracket [0.01, 10] micrometers and 50 bins. *)
Lemma multimode_never_constructs_witness :
  AerosolSpecies_init "sulfate" (DMultiMode two_modes) 0.6%R None None
    (Some (BinsInt 50)) (Some 0.01%R) (Some 10%R) = inl UnboundLocalError.
Proof.
  apply (proj1 (proj2 multimode_never_constructs) R PyFloat_R
           "sulfate"%string two_modes 0.6%R None None 50
           (Some 0.01%R) (Some 10%R) 0.05%R 2%R [0.5%R] [1.5%R]).
  - reflexivity.
  - reflexivity.
  - right. exists 0.01%R, 10%R. split; reflexivity.
Defined.

(** C4 (the code at the failing input).  [ValueError] is raised exactly when
    [bins] is missing for a [Lognorm] or [MultiModeLognorm] distribution or
    the distribution is of another type; but it is not the only failure on a
    well-formed input: a two-mode distribution with any integer bin count and
    no bounds builds no object and raises [UnboundLocalError]. *)
Theorem ValueError_triggers_and_other_failure :
  (forall (A : Type) (F : PyFloat A) species (dist : distribution_arg A)
          kappa rho mw bins r_min r_max,
      AerosolSpecies_init species dist kappa rho mw bins r_min r_max
        = inl ValueError
      <-> ((exists l, dist = DLognorm l) /\ bins = None)
          \/ ((exists m, dist = DMultiMode m) /\ bins = None)
          \/ (exists t, dist = DOther t))
  /\ (forall n : nat,
      AerosolSpecies_init "sulfate" (DMultiMode two_modes) 0.6%R None None
        (Some (BinsInt n)) None None = inl UnboundLocalError
      /\ AerosolSpecies_init "sulfate" (DMultiMode two_modes) 0.6%R None None
           (Some (BinsInt n)) None None <> inl ValueError
      /\ forall s : AerosolSpecies R,
          AerosolSpecies_init "sulfate" (DMultiMode two_modes) 0.6%R None None
            (Some (BinsInt n)) None None <> inr s).
Proof.
  split.
  - intros A F species dist kappa rho mw bins r_min r_max.
    rewrite AerosolSpecies_init_raises.
    destruct dist as [d|l|m|t].
    + split.
      * intros H. destruct (init_dict_not_ValueError d H).
      * intros [[[l Hl] _]|[[[m Hm] _]|[t Ht]]]; discriminate.
    + destruct bins as [b|].
      * split.
        -- intros H. destruct (init_lognorm_not_ValueError l b r_min r_max H).
        -- intros [[_ Hb]|[[[m Hm] _]|[t Ht]]]; discriminate.
      * split; [|reflexivity]. intros _. left. split; [eexists|]; reflexivity.
    + destruct bins as [b|].
      * split.
        -- intros H.
           destruct (init_multimode_raises m b r_min r_max) as (e & He & Hne).
           rewrite H in He. injection He as <-. contradiction.
        -- intros [[[l Hl] _]|[[_ Hb]|[t Ht]]]; discriminate.
      * split; [|reflexivity].
        intros _. right. left. split; [eexists|]; reflexivity.
    + split; [|reflexivity]. intros _. right. right. eexists. reflexivity.
  - intros n.
    assert (H : AerosolSpecies_init "sulfate" (DMultiMode two_modes) 0.6%R
                  None None (Some (BinsInt n)) None None
                = inl UnboundLocalError).
    { apply AerosolSpecies_init_raises.
      apply (init_multimode_unbound two_modes n None None
               0.05%R [0.5%R] 2%R [1.5%R]); try reflexivity.
      left. split; reflexivity. }
    rewrite H. repeat split; intros; discriminate.
Qed.

(** ** The single-mode branch: shape of the result *)

Section LognormLengths.
Context {A : Type} {F : PyFloat A}.
Local Open Scope py_scope.

(** Lengths and bin centres, in every arithmetic. *)
Lemma lognorm_lengths species (l : Lognorm A) kappa rho mw n r_min r_max
    lr rr :
  log_bracket (mu l / (c10 * sigma l)) (mu l * c10 * sigma l) r_min r_max
    = ret (lr, rr) ->
  exists s : AerosolSpecies A,
    AerosolSpecies_init species (DLognorm l) kappa rho mw (Some (BinsInt n))
      r_min r_max = inr s
    /\ rs s = logspace lr rr (S n)
    /\ length (rs s) = S n /\ length (r_drys s) = n /\ length (Nis s) = n
    /\ nr s = n
    /\ forall i : nat, (i < n)%nat ->
        nth i (r_drys s) c0 =
          sqrt (nth i (rs s) c0 * nth (S i) (rs s) c0) * c1e_6.
Proof.
  intros Hb.
  eexists; split;
    [apply AerosolSpecies_init_lognorm; apply edges_of_bracket; exact Hb|].
  cbn [rs r_drys Nis nr].
  rewrite !length_map, length_mids_of, length_trapezoids, !length_logspace.
  repeat split.
  intros i Hi.
  rewrite (nth_indep _ c0 (sqrt (c0 * c0) * c1e_6))
    by (rewrite length_map, length_mids_of, length_logspace; exact Hi).
  rewrite (map_nth (fun x : A => x * c1e_6)
             (mids_of (logspace lr rr (S n))) (sqrt (c0 * c0)) i).
  rewrite nth_mids_of by (rewrite length_logspace; lia).
  reflexivity.
Qed.

End LognormLengths.

(** ** The single-mode branch over exact arithmetic *)

Section LognormShape.
Local Open Scope R_scope.

(** Everything the discretisation promises follows once the logarithms of
    the bracket are in order. *)
Lemma lognorm_shape_of_bracket species (l : Lognorm R) kappa rho mw n
    r_min r_max lr rr :
  log_bracket (mu l / (c10 * sigma l))%py (mu l * c10 * sigma l)%py
    r_min r_max = ret (lr, rr) ->
  lr < rr ->
  exists s : AerosolSpecies R,
    AerosolSpecies_init species (DLognorm l) kappa rho mw (Some (BinsInt n))
      r_min r_max = inr s
    /\ length (rs s) = S n /\ length (r_drys s) = n /\ length (Nis s) = n
    /\ increasing (rs s) /\ increasing (r_drys s)
    /\ forall i : nat, (i < n)%nat ->
        nth i (r_drys s) 0 =
          R_sqrt.sqrt (nth i (rs s) 0 * nth (S i) (rs s) 0) * 1e-6.
Proof.
  intros Hb Hlt.
  destruct (lognorm_lengths species l kappa rho mw n r_min r_max lr rr Hb)
    as (s & Hs & Hrs & Hlen_rs & Hlen_r & Hlen_N & _ & Hmid).
  exists s. repeat split; try assumption.
  - rewrite Hrs. apply logspace_increasing. exact Hlt.
  - rewrite (AerosolSpecies_init_lognorm _ _ _ _ _ _ _ _ _
               (edges_of_bracket _ _ n _ _ _ _ Hb)) in Hs.
    apply (f_equal (fun r => match r with inr s => r_drys s | inl _ => [] end))
      in Hs.
    cbn [ret r_drys] in Hs. rewrite <- Hs.
    apply mids_logspace_increasing. exact Hlt.
Qed.

Lemma default_bracket_in_order (m s : R) :
  0 < m -> 1 < s ->
  log10 (m / (c10 * s))%py < log10 (m * c10 * s)%py.
Proof.
  intros Hm Hs. apply log10_lt; exact_arith.
  - apply Rdiv_lt_0_compat; lra.
  - apply Rlt_trans with m.
    + apply (Rmult_lt_reg_r (10 * s)); [lra|].
      unfold Rdiv. rewrite Rmult_assoc, Rinv_l by lra. nra.
    + nra.
Qed.

Lemma logspace_reversed_not_increasing (lr rr : R) (n : nat) :
  rr < lr -> ~ increasing (logspace lr rr (S (S n))).
Proof.
  intros Hlt Hinc. unfold logspace, linspace in Hinc.
  cbn [seq map app] in Hinc.
  inversion Hinc as [|x l0 _ Hall]; subst.
  rewrite map_app in Hall. apply Forall_app in Hall as [_ Hlast].
  cbn [map] in Hlast. apply Forall_inv in Hlast.
  match type of Hlast with
  | Rpower 10 (0 * ?step + lr) < _ =>
      replace (0 * step + lr) with lr in Hlast by ring
  end.
  pose proof (Rpower_lt 10 rr lr). lra.
Qed.

End LognormShape.

(** C5 (as the code has it).  For a single-mode [Lognorm] with an integer
    bin count [n] and a bracket that is either defaulted (both bounds falsy)
    or given in full: [len(rs) == n+1], [len(r_drys) == len(Nis) == n] and
    [r_drys[i] == sqrt(rs[i]*rs[i+1]) * 1e-6], in every arithmetic.  With
    positive geometric mean and geometric standard deviation above 1, and the
    bracket defaulted or given with [0 < r_min < r_max], [rs] and [r_drys]
    are moreover strictly increasing (exact arithmetic). *)
Theorem lognorm_bins_shape :
  (forall (A : Type) (F : PyFloat A) species (l : Lognorm A) kappa rho mw
          (n : nat) (r_min r_max : option A),
      bracket_complete r_min r_max ->
      exists s : AerosolSpecies A,
        AerosolSpecies_init species (DLognorm l) kappa rho mw
          (Some (BinsInt n)) r_min r_max = inr s
        /\ length (rs s) = S n /\ length (r_drys s) = n
        /\ length (Nis s) = n /\ nr s = n
        /\ forall i : nat, (i < n)%nat ->
            nth i (r_drys s) c0 =
              (sqrt (nth i (rs s) c0 * nth (S i) (rs s) c0) * c1e_6)%py)
  /\ (forall species (l : Lognorm R) kappa rho mw (n : nat)
             (r_min r_max : option R),
      (0 < mu l)%R -> (1 < sigma l)%R -> bracket_usable r_min r_max ->
      exists s : AerosolSpecies R,
        AerosolSpecies_init species (DLognorm l) kappa rho mw
          (Some (BinsInt n)) r_min r_max = inr s
        /\ length (rs s) = S n /\ length (r_drys s) = n
        /\ length (Nis s) = n
        /\ increasing (rs s) /\ increasing (r_drys s)
        /\ forall i : nat, (i < n)%nat ->
            nth i (r_drys s) 0%R =
              (R_sqrt.sqrt (nth i (rs s) 0 * nth (S i) (rs s) 0) * 1e-6)%R).
Proof.
  split.
  - intros A F species l kappa rho mw n r_min r_max Hbr.
    destruct (log_bracket_complete (mu l / (c10 * sigma l))%py
                (mu l * c10 * sigma l)%py r_min r_max Hbr) as (lr & rr & Hb).
    destruct (lognorm_lengths species l kappa rho mw n r_min r_max lr rr Hb)
      as (s & Hs & _ & Hrest).
    exists s. split; assumption.
  - intros species l kappa rho mw n r_min r_max Hmu Hsigma Hbr.
    destruct Hbr as [[H1 H2]|(a & b & -> & -> & Ha & Hab)].
    + apply (lognorm_shape_of_bracket species l kappa rho mw n r_min r_max
               _ _ (log_bracket_default _ _ _ _ H1 H2)
               (default_bracket_in_order _ _ Hmu Hsigma)).
    + assert (Hz : is_zero a && is_zero b = false).
      { rewrite (is_zero_R_false a) by lra. reflexivity. }
      assert (Hlog : (log10 a < log10 b)%R) by (apply log10_lt; lra).
      apply (lognorm_shape_of_bracket species l kappa rho mw n
               (Some a) (Some b) _ _ (log_bracket_explicit _ _ a b Hz) Hlog).
Qed.

(** The sulfate of the docstring, 200 bins, no bounds. *)
Lemma lognorm_bins_shape_witness :
  (exists s : AerosolSpecies R,
      AerosolSpecies_init "(NH4)2SO4" (DLognorm sulfate) 0.6%R None None
        (Some (BinsInt 200)) None None = inr s
      /\ length (rs s) = 201%nat /\ length (r_drys s) = 200%nat
      /\ length (Nis s) = 200%nat /\ nr s = 200%nat
      /\ forall i : nat, (i < 200)%nat ->
          nth i (r_drys s) c0 =
            (sqrt (nth i (rs s) c0 * nth (S i) (rs s) c0) * c1e_6)%py)
  /\ (exists s : AerosolSpecies R,
      AerosolSpecies_init "(NH4)2SO4" (DLognorm sulfate) 0.6%R None None
        (Some (BinsInt 200)) None None = inr s
      /\ length (rs s) = 201%nat /\ length (r_drys s) = 200%nat
      /\ length (Nis s) = 200%nat
      /\ increasing (rs s) /\ increasing (r_drys s)
      /\ forall i : nat, (i < 200)%nat ->
          nth i (r_drys s) 0%R =
            (R_sqrt.sqrt (nth i (rs s) 0 * nth (S i) (rs s) 0) * 1e-6)%R).
Proof.
  destruct lognorm_bins_shape as (Hlengths & Horder).
  split.
  - apply (Hlengths R PyFloat_R "(NH4)2SO4"%string sulfate 0.6%R None None 200
             None None).
    left. split; reflexivity.
  - apply (Horder "(NH4)2SO4"%string sulfate 0.6%R None None 200 None None).
    + cbn [mu sulfate]. lra.
    + cbn [sigma sulfate]. lra.
    + left. split; reflexivity.
Defined.

(** With the bounds given in the wrong order the edges decrease; with one
    bound only no object is built. *)
Lemma lognorm_edges_not_always_increasing :
  (0 < mu sulfate)%R /\ (1 < sigma sulfate)%R
  /\ (~ exists s : AerosolSpecies R,
        AerosolSpecies_init "(NH4)2SO4" (DLognorm sulfate) 0.6%R None None
          (Some (BinsInt 1)) (Some 10%R) (Some 1%R) = inr s
        /\ length (rs s) = 2%nat /\ length (r_drys s) = 1%nat
        /\ length (Nis s) = 1%nat
        /\ increasing (rs s))
  /\ (~ exists s : AerosolSpecies R,
        AerosolSpecies_init "(NH4)2SO4" (DLognorm sulfate) 0.6%R None None
          (Some (BinsInt 1)) (Some 10%R) None = inr s).
Proof.
  split; [cbn; lra|]. split; [cbn; lra|]. split.
  - intros (s & Hs & _ & _ & _ & Hinc).
    assert (Hz : is_zero 10%R && is_zero 1%R = false).
    { rewrite (is_zero_R_false 10%R) by lra. reflexivity. }
    rewrite (AerosolSpecies_init_lognorm _ _ _ _ _ _ _ _ _
               (edges_of_bracket _ _ 1 _ _ _ _
                  (log_bracket_explicit _ _ 10%R 1%R Hz))) in Hs.
    apply (f_equal (fun r => match r with inr s => rs s | inl _ => [] end))
      in Hs.
    cbn [ret rs] in Hs. rewrite <- Hs in Hinc.
    apply logspace_reversed_not_increasing in Hinc; [exact Hinc|].
    apply log10_lt; lra.
  - intros (s & Hs).
    assert (He : AerosolSpecies_init "(NH4)2SO4" (DLognorm sulfate) 0.6%R
                   None None (Some (BinsInt 1)) (Some 10%R) None
                 = inl TypeError).
    { apply AerosolSpecies_init_raises. unfold init_lognorm, edges.
      rewrite (proj1 (one_bound_TypeError _ _ 10%R
                        (is_zero_R_false 10%R ltac:(lra)))).
      reflexivity. }
    rewrite He in Hs. discriminate Hs.
Qed.




(** ** Binary64: a non-positive bound *)

Section NonPositiveBound.
Local Open Scope float_scope.

Lemma nonfinite_sub (x y : float) :
  nonfinite x \/ nonfinite y -> nonfinite (x - y).
Proof.
  unfold nonfinite. rewrite FloatAxioms.sub_spec. unfold SF64sub.
  destruct (Prim2SF x) as [sx|sx| |sx mx ex],
           (Prim2SF y) as [sy|sy| |sy my ey];
    intros [H|H]; try contradiction; try exact I;
    try (destruct sx, sy; exact I).
Qed.

Lemma nonfinite_div (x y : float) : nonfinite x -> nonfinite (x / y).
Proof.
  unfold nonfinite. rewrite FloatAxioms.div_spec. unfold SF64div.
  destruct (Prim2SF x) as [sx|sx| |sx mx ex],
           (Prim2SF y) as [sy|sy| |sy my ey];
    intros H; try contradiction; exact I.
Qed.

Lemma mul_zero_nonfinite (z : float) : nonfinite z -> 0 * z = nan.
Proof.
  unfold nonfinite. intros H. apply Prim2SF_inj.
  rewrite FloatAxioms.mul_spec. unfold SF64mul.
  change (Prim2SF 0) with (S754_zero false).
  change (Prim2SF nan) with S754_nan.
  destruct (Prim2SF z) as [sz|sz| |sz mz ez]; try contradiction; reflexivity.
Qed.

Lemma add_nan_l (x : float) : nan + x = nan.
Proof.
  apply Prim2SF_inj. rewrite FloatAxioms.add_spec. unfold SF64add.
  change (Prim2SF nan) with S754_nan. reflexivity.
Qed.

Lemma log10_non_positive (lg pw : float -> float) (x : float) :
  libm_contract lg pw -> non_positive x = true -> nonfinite (lg x).
Proof.
  intros (Hzero & Hneg & _) Hx. unfold non_positive in Hx.
  destruct (PrimFloat.eqb x 0) eqn:Hz.
  - rewrite (Hzero x Hz). exact I.
  - cbn [orb] in Hx. rewrite (Hneg x Hx). exact I.
Qed.

(** With an infinite or NaN logarithm at either end, the first sample of
    [logspace] is NaN: [0 * step] is NaN for the infinite or NaN step. *)
Lemma first_edge_nan (lg pw : float -> float) (lr rr : float) (n : nat) :
  pw nan = nan -> nonfinite lr \/ nonfinite rr ->
  nth 0 (logspace (F := PyFloat_binary64 lg pw) lr rr (S (S n))) 0 = nan.
Proof.
  intros Hpw Hnf. unfold logspace, linspace.
  cbn [seq map app nth].
  cbn [add sub mul div of_nat pow10 PyFloat_binary64].
  change (of_uint63 (Uint63.of_Z (Z.of_nat 0))) with 0.
  rewrite mul_zero_nonfinite.
  - rewrite add_nan_l. exact Hpw.
  - apply nonfinite_div, nonfinite_sub. tauto.
Qed.

Lemma example_libm_contract : libm_contract example_log10 example_pow10.
Proof.
  unfold libm_contract, example_log10, example_pow10. repeat split.
  - intros x Hx. rewrite Hx. reflexivity.
  - intros x Hx.
    assert (Hz : PrimFloat.eqb x 0 = false).
    { rewrite FloatAxioms.eqb_spec. rewrite FloatAxioms.ltb_spec in Hx.
      unfold SFeqb. unfold SFltb in Hx.
      destruct (SFcompare (Prim2SF x) (Prim2SF 0)) as [[]|];
        try discriminate Hx; reflexivity. }
    rewrite Hz, Hx. reflexivity.
Qed.

End NonPositiveBound.

(** C9.  The guard of lines 120 and 144 tests truth values, not presence:
    a bound is falsy when it is [None] or zero, the default bracket is taken
    exactly when both bounds are falsy, and [np.log10] is applied to both
    bounds otherwise.  Consequently, with exactly one bound supplied (a
    truthy value, zero being falsy) and the other left [None], construction
    fails with an exception that is not [ValueError]: [np.log10] is applied
    to [None], a [TypeError], for a [Lognorm] and for a [MultiModeLognorm]
    with at least one mode.  So the explicit bracket is only safe when both
    bounds are supplied and positive: off the default branch the bracket is
    computed without an exception exactly when both bounds are supplied;
    over positive bounds the edges run geometrically from [r_min] to [r_max]
    (exact arithmetic); and in binary64, under the C library's contract for
    [log10], a supplied bound that is zero or negative raises nothing and
    makes the first edge NaN, for every bin count of at least 1. *)
Theorem bracket_guard_tests_truthiness :
  (forall (A : Type) (F : PyFloat A) (x : option A),
      py_not x = true <->
      x = None \/ exists v : A, x = Some v /\ is_zero v = true)
  /\ (forall x : option R, py_not x = true <-> x = None \/ x = Some 0%R)
  /\ (forall (A : Type) (F : PyFloat A) (lo hi : A) r_min r_max,
      (py_not r_min = true -> py_not r_max = true ->
       log_bracket lo hi r_min r_max = ret (log10 lo, log10 hi))
      /\ (py_not r_min && py_not r_max = false ->
          log_bracket lo hi r_min r_max =
            (do lr <~ np_log10 r_min; do rr <~ np_log10 r_max; ret (lr, rr))
          /\ ((exists p, log_bracket lo hi r_min r_max = inr p) <->
              (exists a b : A, r_min = Some a /\ r_max = Some b))))
  /\ (forall (A : Type) (F : PyFloat A) species (l : Lognorm A) kappa rho mw
             (n : nat) (x : A),
      is_zero x = false ->
      AerosolSpecies_init species (DLognorm l) kappa rho mw
        (Some (BinsInt n)) (Some x) None = inl TypeError
      /\ AerosolSpecies_init species (DLognorm l) kappa rho mw
           (Some (BinsInt n)) None (Some x) = inl TypeError)
  /\ (forall (A : Type) (F : PyFloat A) species (m : MultiModeLognorm A)
             kappa rho mw (n : nat) (x : A),
      is_zero x = false ->
      (exists e : exn,
          AerosolSpecies_init species (DMultiMode m) kappa rho mw
            (Some (BinsInt n)) (Some x) None = inl e /\ e <> ValueError)
      /\ (exists e : exn,
          AerosolSpecies_init species (DMultiMode m) kappa rho mw
            (Some (BinsInt n)) None (Some x) = inl e /\ e <> ValueError))
  /\ (forall (A : Type) (F : PyFloat A) species (m : MultiModeLognorm A)
             kappa rho mw (n : nat) (x mu0 s0 : A) (mus' sigmas' : list A),
      mus m = mu0 :: mus' -> sigmas m = s0 :: sigmas' ->
      is_zero x = false ->
      AerosolSpecies_init species (DMultiMode m) kappa rho mw
        (Some (BinsInt n)) (Some x) None = inl TypeError
      /\ AerosolSpecies_init species (DMultiMode m) kappa rho mw
           (Some (BinsInt n)) None (Some x) = inl TypeError)
  /\ (forall species (l : Lognorm R) kappa rho mw (n : nat) (a b : R),
      (0 < a)%R -> (0 < b)%R ->
      exists s : AerosolSpecies R,
        AerosolSpecies_init species (DLognorm l) kappa rho mw
          (Some (BinsInt n)) (Some a) (Some b) = inr s
        /\ rs s = log_uniform_edges a b n)
  /\ (forall (lg pw : float -> float) species (l : Lognorm float)
             kappa rho mw (n : nat) (a b : float),
      libm_contract lg pw ->
      (PrimFloat.eqb a 0 && PrimFloat.eqb b 0)%bool = false ->
      non_positive a = true \/ non_positive b = true ->
      exists s : AerosolSpecies float,
        AerosolSpecies_init (F := PyFloat_binary64 lg pw) species
          (DLognorm l) kappa rho mw (Some (BinsInt (S n))) (Some a) (Some b)
          = inr s
        /\ nth 0 (rs s) 0%float = nan).
Proof.
  split; [|split; [|split; [|split; [|split; [|split; [|split]]]]]].
  - intros A F [v|]; cbn; split.
    + intros H. right. exists v. split; [reflexivity|exact H].
    + intros [H|(v' & H & Hz)]; [discriminate|]. injection H as ->. exact Hz.
    + intros _. left. reflexivity.
    + intros _. reflexivity.
  - intros [v|]; cbn [py_not]; [rewrite is_zero_R_true|]; split.
    + intros ->. right. reflexivity.
    + intros [H|H]; [discriminate|]. injection H as ->. reflexivity.
    + intros _. left. reflexivity.
    + intros _. reflexivity.
  - intros A F lo hi r_min r_max. split.
    + apply log_bracket_default.
    + intros Hg. unfold log_bracket. rewrite Hg. split; [reflexivity|].
      destruct r_min as [a|], r_max as [b|]; cbn; split.
      * intros _. exists a, b. split; reflexivity.
      * intros _. eexists. reflexivity.
      * intros [p Hp]. discriminate Hp.
      * intros (a' & b' & _ & Hb). discriminate Hb.
      * intros [p Hp]. discriminate Hp.
      * intros (a' & b' & Ha & _). discriminate Ha.
      * intros [p Hp]. discriminate Hp.
      * intros (a' & b' & Ha & _). discriminate Ha.
  - intros A F species l kappa rho mw n x Hx.
    split; apply AerosolSpecies_init_raises; unfold init_lognorm, edges.
    + rewrite (proj1 (one_bound_TypeError _ _ x Hx)). reflexivity.
    + rewrite (proj2 (one_bound_TypeError _ _ x Hx)). reflexivity.
  - intros A F species m kappa rho mw n x Hx. split.
    + destruct (init_multimode_raises m (BinsInt n) (Some x) None)
        as (e & He & Hne).
      exists e. split; [apply AerosolSpecies_init_raises; exact He|exact Hne].
    + destruct (init_multimode_raises m (BinsInt n) None (Some x))
        as (e & He & Hne).
      exists e. split; [apply AerosolSpecies_init_raises; exact He|exact Hne].
  - intros A F species m kappa rho mw n x mu0 s0 mus' sigmas' Hm Hs Hx.
    destruct (init_multimode_one_bound m n x mu0 mus' s0 sigmas' Hm Hs Hx)
      as [H1 H2].
    split; apply AerosolSpecies_init_raises; assumption.
  - intros species l kappa rho mw n a b Ha Hb.
    eexists; split.
    + apply AerosolSpecies_init_lognorm, edges_of_bracket.
      apply log_bracket_explicit.
      rewrite (is_zero_R_false a) by lra. reflexivity.
    + cbn [rs]. apply logspace_log_uniform; assumption.
  - intros lg pw species l kappa rho mw n a b Hlibm Hz Hnp.
    eexists; split;
      [apply (AerosolSpecies_init_lognorm (F := PyFloat_binary64 lg pw)),
         edges_of_bracket;
       apply (log_bracket_explicit (F := PyFloat_binary64 lg pw)); exact Hz|].
    cbn [rs]. apply first_edge_nan; [apply Hlibm|].
    destruct Hnp as [Ha|Hb]; [left|right];
      apply (log10_non_positive lg pw _ Hlibm); assumption.
Qed.

(** The guard on the sulfate and on the two-mode population: no bounds, the
    single bound 0.01, and the bracket [0.01, 1]; in binary64, the bracket
    [-1, 1] with two bins. *)
Lemma bracket_guard_tests_truthiness_witness :
  log_bracket (F := PyFloat_R) 0.0025%R 1%R None None
    = ret (log10 0.0025%R, log10 1%R)
  /\ log_bracket (F := PyFloat_R) 0.0025%R 1%R (Some 0.01%R) None
    = (do lr <~ np_log10 (Some 0.01%R); do rr <~ np_log10 None; ret (lr, rr))
  /\ AerosolSpecies_init "(NH4)2SO4" (DLognorm sulfate) 0.6%R None None
       (Some (BinsInt 200)) (Some 0.01%R) None = inl TypeError
  /\ (exists e : exn,
        AerosolSpecies_init "sulfate" (DMultiMode two_modes) 0.6%R None None
          (Some (BinsInt 10)) (Some 0.01%R) None = inl e
        /\ e <> ValueError)
  /\ AerosolSpecies_init "sulfate" (DMultiMode two_modes) 0.6%R None None
       (Some (BinsInt 10)) None (Some 0.01%R) = inl TypeError
  /\ (exists s : AerosolSpecies R,
        AerosolSpecies_init "(NH4)2SO4" (DLognorm sulfate) 0.6%R None None
          (Some (BinsInt 200)) (Some 0.01%R) (Some 1%R) = inr s
        /\ rs s = log_uniform_edges 0.01 1 200)
  /\ (exists s : AerosolSpecies float,
        AerosolSpecies_init (F := PyFloat_binary64 example_log10 example_pow10)
          "flat" (DLognorm flat_binary64) 0.6%float None None
          (Some (BinsInt 2)) (Some (-1)%float) (Some 1%float) = inr s
        /\ nth 0 (rs s) 0%float = nan).
Proof.
  destruct bracket_guard_tests_truthiness
    as (_ & _ & Hguard & Hlognorm & Hmulti & Hmodes & Hsafe & Hnan).
  assert (Hz : is_zero 0.01%R = false) by (apply is_zero_R_false; lra).
  split; [|split; [|split; [|split; [|split; [|split]]]]].
  - apply (proj1 (Hguard R PyFloat_R 0.0025%R 1%R None None)); reflexivity.
  - apply (proj2 (Hguard R PyFloat_R 0.0025%R 1%R (Some 0.01%R) None)).
    cbn [py_not]. rewrite Hz. reflexivity.
  - apply (Hlognorm R PyFloat_R "(NH4)2SO4"%string sulfate 0.6%R None None
             200 0.01%R Hz).
  - apply (Hmulti R PyFloat_R "sulfate"%string two_modes 0.6%R None None
             10 0.01%R Hz).
  - apply (Hmodes R PyFloat_R "sulfate"%string two_modes 0.6%R None None
             10 0.01%R 0.05%R 2%R [0.5%R] [1.5%R] eq_refl eq_refl Hz).
  - apply (Hsafe "(NH4)2SO4"%string sulfate 0.6%R None None 200 0.01%R 1%R);
      lra.
  - apply (Hnan example_log10 example_pow10 "flat"%string flat_binary64
             0.6%float None None 1 (-1)%float 1%float).
    + exact example_libm_contract.
    + reflexivity.
    + left. reflexivity.
Defined.

(** * Further properties *)

(** Decides the tests of a rule given as a literal. *)
Ltac eval_rule :=
  repeat match goal with
  | |- context [String.eqb ?x ?y] =>
      let b := eval vm_compute in (String.eqb x y) in
      change (String.eqb x y) with b
  end; cbv iota.

(** ** [dist_to_conc] over exact arithmetic *)

Section QuadratureRules.
Local Open Scope R_scope.
Context {D : Type} {H : HasPdf (A := R) D}.

(** X13.  Whatever the rule, exchanging the two bounds changes the sign of
    the estimate, and an interval of width zero gives zero. *)
Theorem dist_to_conc_swap_bounds (dist : D) (a b : R) (rule : string) :
  dist_to_conc dist b a rule = - dist_to_conc dist a b rule
  /\ dist_to_conc dist a a rule = 0.
Proof.
  unfold dist_to_conc.
  destruct (String.eqb rule "trapezoid"), (String.eqb rule "simpson");
    exact_arith; replace (0.5 * (b + a)) with (0.5 * (a + b)) by ring;
    split; field.
Qed.

(** X14.  The Simpson estimate is the weighted mean of the other two: one
    third of the trapezoid estimate plus two thirds of the midpoint one. *)
Theorem simpson_from_trapezoid_and_midpoint (dist : D) (a b : R) :
  dist_to_conc dist a b "simpson" =
    (dist_to_conc dist a b "trapezoid"
     + 2 * dist_to_conc dist a b "midpoint") / 3.
Proof. unfold dist_to_conc. eval_rule. exact_arith. lra. Qed.

(** X15.  Exactness: on a density that is a polynomial of degree at most 3
    the Simpson rule returns its integral over the interval; on a density of
    degree at most 1 so do the trapezoid rule and the midpoint fallback. *)
Theorem quadrature_exact_on_polynomials (dist : D) (a b c3 c2 c1 k : R) :
  ((forall x, pdf dist x = cubic c3 c2 c1 k x) ->
   dist_to_conc dist a b "simpson" = cubic_integral c3 c2 c1 k a b)
  /\ ((forall x, pdf dist x = cubic 0 0 c1 k x) ->
      forall rule : string,
        dist_to_conc dist a b rule = cubic_integral 0 0 c1 k a b).
Proof.
  split.
  - intros Hp. unfold dist_to_conc. eval_rule.
    rewrite !Hp. unfold cubic, cubic_integral. exact_arith.
    replace 0.5 with (/ 2) by lra. field.
  - intros Hp rule. unfold dist_to_conc.
    destruct (String.eqb rule "trapezoid"), (String.eqb rule "simpson");
      rewrite !Hp; unfold cubic, cubic_integral; exact_arith;
      replace 0.5 with (/ 2) by lra; field.
Qed.

(** X16.  Bounds: on an interval [a <= b], a density between [m] and [M]
    gives, under every rule, an estimate between [m*(b-a)] and [M*(b-a)];
    in particular a non-negative density gives a non-negative estimate. *)
Theorem dist_to_conc_bounds (dist : D) (a b m M : R) (rule : string) :
  a <= b -> (forall x, m <= pdf dist x <= M) ->
  m * (b - a) <= dist_to_conc dist a b rule <= M * (b - a).
Proof.
  intros Hab Hp. unfold dist_to_conc.
  pose proof (Hp a) as Ha. pose proof (Hp b) as Hb.
  pose proof (Hp (0.5 * (b + a))) as Hm.
  destruct (String.eqb rule "trapezoid"), (String.eqb rule "simpson");
    exact_arith; split; nra.
Qed.

End QuadratureRules.

(** The density [3x^2 + 1] over [0, 2]: the Simpson rule returns the integral
    10; the density [x + 1] under the trapezoid rule returns 4. *)
Lemma quadrature_exact_on_polynomials_witness :
  dist_to_conc (H := fun (_ : unit) x => cubic 0 3 0 1 x) tt 0%R 2%R "simpson"
    = cubic_integral 0 3 0 1 0 2
  /\ dist_to_conc (H := fun (_ : unit) x => cubic 0 0 1 1 x) tt 0%R 2%R
       "trapezoid" = cubic_integral 0 0 1 1 0 2.
Proof.
  split.
  - apply (proj1 (quadrature_exact_on_polynomials
                    (H := fun (_ : unit) x => cubic 0 3 0 1 x)
                    tt 0%R 2%R 0%R 3%R 0%R 1%R)).
    intros x. reflexivity.
  - apply (proj2 (quadrature_exact_on_polynomials
                    (H := fun (_ : unit) x => cubic 0 0 1 1 x)
                    tt 0%R 2%R 0%R 0%R 1%R 1%R)).
    intros x. reflexivity.
Defined.

(** A constant density 2 over [1, 3] lies between 2 and 2 times the width. *)
Lemma dist_to_conc_bounds_witness :
  (2 * (3 - 1) <=
     dist_to_conc (H := fun (c : R) (_ : R) => c) 2%R 1%R 3%R "simpson"
   <= 2 * (3 - 1))%R.
Proof.
  apply (dist_to_conc_bounds (H := fun (c : R) (_ : R) => c) 2%R 1%R 3%R
           2%R 2%R "simpson").
  - lra.
  - intros x. unfold pdf. lra.
Defined.

(** ** The pre-binned dict: outcomes and units *)

Section DictOutcome.
Context {A : Type} {F : PyFloat A}.

(** The outcome of lines 106-110, by what the dict holds. *)
Lemma AerosolSpecies_init_dict_cases species (d : gmap string (list A))
    kappa rho mw bins r_min r_max :
  match d !! "r_drys"%string with
  | None =>
      AerosolSpecies_init species (DDict d) kappa rho mw bins r_min r_max
        = inl KeyError
  | Some [] =>
      AerosolSpecies_init species (DDict d) kappa rho mw bins r_min r_max
        = inl IndexError
  | Some (r0 :: rest) =>
      match d !! "Nis"%string with
      | None =>
          AerosolSpecies_init species (DDict d) kappa rho mw bins r_min r_max
            = inl KeyError
      | Some ns =>
          exists s,
            AerosolSpecies_init species (DDict d) kappa rho mw bins
              r_min r_max = inr s
      end
  end.
Proof.
  destruct (d !! "r_drys"%string) as [[|r0 rest]|] eqn:Hr.
  - apply AerosolSpecies_init_raises. unfold init_dict. rewrite Hr. reflexivity.
  - destruct (d !! "Nis"%string) as [ns|] eqn:HN.
    + eexists. apply (AerosolSpecies_init_dict _ _ _ _ _ _ _ _ _ _ _ Hr HN).
    + apply AerosolSpecies_init_raises. unfold init_dict. rewrite Hr, HN.
      reflexivity.
  - apply AerosolSpecies_init_raises. unfold init_dict. rewrite Hr. reflexivity.
Qed.

End DictOutcome.

(** X1.  Outcome of a construction from a dict, whatever [bins], [r_min] and
    [r_max] are: [KeyError] exactly when ['r_drys'] is missing, or holds at
    least one radius while ['Nis'] is missing; [IndexError] exactly when
    ['r_drys'] is empty (checked before ['Nis'] is looked up); an object
    exactly when ['r_drys'] holds at least one radius and ['Nis'] is present.
    No other exception is raised. *)
Theorem dict_construction_outcome :
  forall (A : Type) (F : PyFloat A) species (d : gmap string (list A))
         kappa rho mw bins r_min r_max,
    (AerosolSpecies_init species (DDict d) kappa rho mw bins r_min r_max
       = inl KeyError
     <-> d !! "r_drys"%string = None
         \/ ((exists r0 rest, d !! "r_drys"%string = Some (r0 :: rest))
             /\ d !! "Nis"%string = None))
    /\ (AerosolSpecies_init species (DDict d) kappa rho mw bins r_min r_max
          = inl IndexError
        <-> d !! "r_drys"%string = Some [])
    /\ ((exists s,
            AerosolSpecies_init species (DDict d) kappa rho mw bins
              r_min r_max = inr s)
        <-> exists r0 rest ns,
              d !! "r_drys"%string = Some (r0 :: rest)
              /\ d !! "Nis"%string = Some ns)
    /\ (forall e,
          AerosolSpecies_init species (DDict d) kappa rho mw bins r_min r_max
            = inl e ->
          e = KeyError \/ e = IndexError).
Proof.
  intros A F species d kappa rho mw bins r_min r_max.
  pose proof (AerosolSpecies_init_dict_cases species d kappa rho mw bins
                r_min r_max) as Hc.
  destruct (d !! "r_drys"%string) as [[|r0 rest]|];
    [| destruct (d !! "Nis"%string) as [ns|]; [destruct Hc as [s Hc]|] |];
    rewrite Hc; repeat split;
    try (intros; discriminate);
    try (intros [Hx|[(? & ? & Hx) Hy]]; discriminate);
    try (intros (? & ? & ? & Hx & Hy); discriminate);
    try (intros (? & Hx); discriminate).
  - intros e He. right. congruence.
  - intros _. exists r0, rest, ns. split; reflexivity.
  - intros _. exists s. reflexivity.
  - intros _. right. split; [exists r0, rest|]; reflexivity.
  - intros e He. left. congruence.
  - intros _. left. reflexivity.
  - intros e He. left. congruence.
Qed.

Section DictUnits.
Local Open Scope R_scope.

Lemma fold_left_Rplus_scaled (k : R) (l : list R) (acc : R) :
  fold_left Rplus (map (fun x => x * k) l) (acc * k)
    = fold_left Rplus l acc * k.
Proof.
  revert acc. induction l as [|x l IH]; intros acc; [reflexivity|].
  cbn [map fold_left]. rewrite <- IH. f_equal. ring.
Qed.

Lemma np_sum_scaled (k : R) (l : list R) :
  np_sum (map (fun x => (x * k)%py) l) = np_sum l * k.
Proof.
  unfold np_sum. exact_arith.
  rewrite <- fold_left_Rplus_scaled. f_equal. ring.
Qed.

End DictUnits.

(** X2.  Units of the dict variant, in exact arithmetic: the stored radii
    times 1e6 are the radii supplied (micrometers), the stored concentrations
    divided by 1e6 are the concentrations supplied, [N] is the sum of the
    concentrations supplied, so that [sum(Nis) == 1e6 * N]; and a positive
    first radius lies strictly between the two edges, which are 20% of it
    apart. *)
Theorem dict_units :
  forall species (d : gmap string (list R)) kappa rho mw bins r_min r_max
         (r0 : R) (rest ns : list R),
    d !! "r_drys"%string = Some (r0 :: rest) ->
    d !! "Nis"%string = Some ns ->
    exists s : AerosolSpecies R,
      AerosolSpecies_init species (DDict d) kappa rho mw bins r_min r_max
        = inr s
      /\ map (fun x => x * 1e6)%R (r_drys s) = r0 :: rest
      /\ map (fun x => x / 1e6)%R (Nis s) = ns
      /\ N s = Some (np_sum ns)
      /\ np_sum (Nis s) = (1e6 * np_sum ns)%R
      /\ exists lo hi : R,
          rs s = [lo; hi] /\ (hi - lo = 0.2 * r0)%R
          /\ ((0 < r0)%R -> (lo < r0 < hi)%R).
Proof.
  intros species d kappa rho mw bins r_min r_max r0 rest ns Hr HN.
  eexists; split;
    [apply (AerosolSpecies_init_dict _ _ _ _ _ _ _ _ _ _ _ Hr HN)|].
  cbn [r_drys Nis N rs]. repeat split.
  - rewrite map_map. rewrite <- (map_id (r0 :: rest)) at 2.
    apply map_ext. intros x. exact_arith. lra.
  - rewrite map_map. rewrite <- (map_id ns) at 2.
    apply map_ext. intros x. exact_arith. lra.
  - rewrite np_sum_scaled. exact_arith. lra.
  - do 2 eexists. split; [reflexivity|]. exact_arith. split; [lra|].
    intros Hpos. lra.
Qed.

(** Two radii against one concentration. *)
Lemma dict_units_witness :
  exists s : AerosolSpecies R,
    AerosolSpecies_init "NaCl" (DDict (uneven_dict 0.1 0.2 1000)%R) 0.2%R
      None None None None None = inr s
    /\ map (fun x => x * 1e6)%R (r_drys s) = [0.1; 0.2]%R
    /\ map (fun x => x / 1e6)%R (Nis s) = [1000%R]
    /\ N s = Some (np_sum [1000%R])
    /\ np_sum (Nis s) = (1e6 * np_sum [1000%R])%R
    /\ exists lo hi : R,
        rs s = [lo; hi] /\ (hi - lo = 0.2 * 0.1)%R
        /\ ((0 < 0.1)%R -> (lo < 0.1 < hi)%R).
Proof.
  apply (dict_units "NaCl"%string (uneven_dict 0.1 0.2 1000)%R 0.2%R
           None None None None None 0.1%R [0.2%R] [1000%R]).
  - reflexivity.
  - reflexivity.
Defined.

(** ** The single-mode branch: every successful construction *)

Section LognormObjects.
Context {A : Type} {F : PyFloat A}.
Local Open Scope py_scope.

Lemma nth_trapezoids {D} `{HasPdf A D} (dist : D) (l : list A) (i : nat)
    (d : A) :
  (S i < length l)%nat ->
  nth i (trapezoids dist l) (c0_5 * (d - d) * (pdf dist d + pdf dist d)) =
    c0_5 * (nth (S i) l d - nth i l d)
    * (pdf dist (nth i l d) + pdf dist (nth (S i) l d)).
Proof.
  intros Hi. unfold trapezoids.
  change (c0_5 * (d - d) * (pdf dist d + pdf dist d))
    with ((fun ab : A * A =>
             let a := fst ab in let b := snd ab in
             c0_5 * (b - a) * (pdf dist a + pdf dist b)) (d, d)).
  rewrite map_nth, nth_adjacent by assumption. reflexivity.
Qed.

(** Whatever object the single-mode branch builds, it is the one determined
    by the edges. *)
Lemma AerosolSpecies_init_lognorm_inv species (l : Lognorm A) kappa rho mw
    bins r_min r_max (s : AerosolSpecies A) :
  AerosolSpecies_init species (DLognorm l) kappa rho mw bins r_min r_max
    = inr s ->
  exists b es,
    bins = Some b
    /\ edges (mu l / (c10 * sigma l)) (mu l * c10 * sigma l) b r_min r_max
       = ret es
    /\ s = {| species := species; kappa := kappa; rho := rho; mw := mw;
              bins := Some b; distribution := DLognorm l;
              r_drys := map (fun x => x * c1e_6) (mids_of es);
              rs := es;
              Nis := map (fun x => x * c1e6) (trapezoids l es);
              N := None;
              nr := pred (length es) |}.
Proof.
  intros Hs. destruct bins as [b|]; [|discriminate Hs].
  destruct (edges (mu l / (c10 * sigma l)) (mu l * c10 * sigma l) b
              r_min r_max) as [e|es] eqn:He.
  - unfold AerosolSpecies_init, init_lognorm in Hs. rewrite He in Hs.
    discriminate Hs.
  - rewrite (AerosolSpecies_init_lognorm _ _ _ _ _ _ _ _ _ He) in Hs.
    exists b, es. split; [reflexivity|]. split; [exact He|].
    injection Hs as <-. reflexivity.
Qed.

End LognormObjects.

(** X3.  Every object built from a [Lognorm], from an integer bin count or
    from a list of edges, in every arithmetic: [nr == len(r_drys) == len(Nis)
    == len(rs) - 1] (0 when [rs] is empty), [N] is not assigned, and for each
    bin [i], [r_drys[i] == sqrt(rs[i]*rs[i+1]) * 1e-6] and
    [Nis[i] == 0.5*(rs[i+1]-rs[i])*(pdf(rs[i])+pdf(rs[i+1])) * 1e6]. *)
Theorem lognorm_object_contents :
  forall (A : Type) (F : PyFloat A) species (l : Lognorm A) kappa rho mw
         bins r_min r_max (s : AerosolSpecies A),
    AerosolSpecies_init species (DLognorm l) kappa rho mw bins r_min r_max
      = inr s ->
    nr s = pred (length (rs s))
    /\ length (r_drys s) = nr s /\ length (Nis s) = nr s
    /\ N s = None
    /\ forall i : nat, (i < nr s)%nat ->
        nth i (r_drys s) c0 =
          (sqrt (nth i (rs s) c0 * nth (S i) (rs s) c0) * c1e_6)%py
        /\ nth i (Nis s) c0 =
          (c0_5 * (nth (S i) (rs s) c0 - nth i (rs s) c0)
           * (pdf l (nth i (rs s) c0) + pdf l (nth (S i) (rs s) c0))
           * c1e6)%py.
Proof.
  intros A F species l kappa rho mw bins r_min r_max s Hs.
  destruct (AerosolSpecies_init_lognorm_inv _ _ _ _ _ _ _ _ _ Hs)
    as (b & es & _ & _ & ->).
  cbn [nr rs r_drys Nis N].
  rewrite !length_map, length_mids_of, length_trapezoids.
  repeat split.
  - rewrite (nth_indep _ c0 (sqrt (c0 * c0) * c1e_6)%py)
      by (rewrite length_map, length_mids_of; assumption).
    rewrite (map_nth (fun x : A => (x * c1e_6)%py) (mids_of es)
               (sqrt (c0 * c0)%py) i).
    rewrite nth_mids_of by lia. reflexivity.
  - rewrite (nth_indep _ c0
               (c0_5 * (c0 - c0) * (pdf l c0 + pdf l c0) * c1e6)%py)
      by (rewrite length_map, length_trapezoids; assumption).
    rewrite (map_nth (fun x : A => (x * c1e6)%py) (trapezoids l es)
               (c0_5 * (c0 - c0) * (pdf l c0 + pdf l c0))%py i).
    rewrite nth_trapezoids by lia. reflexivity.
Qed.

(** The sulfate over the user-supplied edges 0.01, 0.1, 1. *)
Lemma lognorm_object_contents_witness :
  exists s : AerosolSpecies R,
    AerosolSpecies_init "(NH4)2SO4" (DLognorm sulfate) 0.6%R None None
      (Some (BinsEdges [0.01; 0.1; 1]%R)) None None = inr s
    /\ nr s = pred (length (rs s))
    /\ length (r_drys s) = nr s /\ length (Nis s) = nr s
    /\ N s = None
    /\ forall i : nat, (i < nr s)%nat ->
        nth i (r_drys s) c0 =
          (sqrt (nth i (rs s) c0 * nth (S i) (rs s) c0) * c1e_6)%py
        /\ nth i (Nis s) c0 =
          (c0_5 * (nth (S i) (rs s) c0 - nth i (rs s) c0)
           * (pdf sulfate (nth i (rs s) c0) + pdf sulfate (nth (S i) (rs s) c0))
           * c1e6)%py.
Proof.
  eexists. split.
  - apply AerosolSpecies_init_lognorm. reflexivity.
  - apply (lognorm_object_contents R PyFloat_R "(NH4)2SO4"%string sulfate
             0.6%R None None (Some (BinsEdges [0.01; 0.1; 1]%R)) None None).
    apply AerosolSpecies_init_lognorm. reflexivity.
Defined.

(** X4.  Edges supplied as a list are used as they are: whatever [r_min] and
    [r_max] (one bound alone included), construction succeeds with
    [rs == bins] and [nr == len(bins) - 1]; an empty list or a single edge
    gives an object with no bins. *)
Theorem lognorm_user_edges :
  forall (A : Type) (F : PyFloat A) species (l : Lognorm A) kappa rho mw
         (es : list A) r_min r_max,
    exists s : AerosolSpecies A,
      AerosolSpecies_init species (DLognorm l) kappa rho mw
        (Some (BinsEdges es)) r_min r_max = inr s
      /\ rs s = es /\ nr s = pred (length es)
      /\ ((length es <= 1)%nat -> r_drys s = [] /\ Nis s = []).
Proof.
  intros A F species l kappa rho mw es r_min r_max.
  eexists; split; [apply AerosolSpecies_init_lognorm; reflexivity|].
  cbn [rs nr r_drys Nis]. repeat split;
    destruct es as [|x [|y es]]; cbn in *; try reflexivity; lia.
Qed.

(** A single edge, and only the lower bound given. *)
Lemma lognorm_user_edges_witness :
  exists s : AerosolSpecies R,
    AerosolSpecies_init "(NH4)2SO4" (DLognorm sulfate) 0.6%R None None
      (Some (BinsEdges [0.01%R])) (Some 0.01%R) None = inr s
    /\ rs s = [0.01%R] /\ nr s = 0%nat /\ r_drys s = [] /\ Nis s = [].
Proof.
  destruct (lognorm_user_edges R PyFloat_R "(NH4)2SO4"%string sulfate 0.6%R
              None None [0.01%R] (Some 0.01%R) None)
    as (s & Hs & Hrs & Hnr & Hempty).
  exists s. repeat split; try assumption; apply Hempty; cbn; lia.
Defined.

(** ** Outcomes of the parametric branches *)

Set Warnings "-clear-no-such-hyp".

Section ParametricOutcome.
Context {A : Type} {F : PyFloat A}.
Local Open Scope py_scope.

(** The bounds are of one kind or the other, never both. *)
Lemma bounds_cases (r_min r_max : option A) :
  (bracket_complete r_min r_max /\ ~ one_bound_only r_min r_max)
  \/ (one_bound_only r_min r_max /\ ~ bracket_complete r_min r_max).
Proof.
  unfold bracket_complete, one_bound_only.
  destruct r_min as [a|], r_max as [b|]; cbn [py_not].
  - left. split; [right; exists a, b; split; reflexivity|].
    intros [[H _]|[H _]]; discriminate H.
  - destruct (is_zero a) eqn:Ha.
    + left. split; [left; split; reflexivity|].
      intros [[H _]|[_ H]]; discriminate H.
    + right. split; [right; split; reflexivity|].
      intros [[H _]|(a' & b' & _ & H)]; discriminate H.
  - destruct (is_zero b) eqn:Hb.
    + left. split; [left; split; reflexivity|].
      intros [[_ H]|[H _]]; discriminate H.
    + right. split; [left; split; reflexivity|].
      intros [[_ H]|(a' & b' & H & _)]; discriminate H.
  - left. split; [left; split; reflexivity|].
    intros [[_ H]|[_ H]]; discriminate H.
Qed.

Lemma log_bracket_one_bound (lo hi : A) r_min r_max :
  one_bound_only r_min r_max ->
  log_bracket lo hi r_min r_max = inl TypeError.
Proof.
  unfold one_bound_only, log_bracket.
  intros [[-> H]|[-> H]]; cbn [py_not andb].
  - rewrite H. reflexivity.
  - rewrite H. cbn [andb]. destruct r_min as [a|]; [reflexivity|].
    discriminate H.
Qed.

Lemma init_lognorm_one_bound (l : Lognorm A) n r_min r_max :
  one_bound_only r_min r_max ->
  init_lognorm l (Some (BinsInt n)) r_min r_max = inl TypeError.
Proof.
  intros H1. unfold init_lognorm, edges.
  rewrite (log_bracket_one_bound _ _ _ _ H1). reflexivity.
Qed.

Lemma init_multimode_cases (m : MultiModeLognorm A) b r_min r_max :
  match mus m, sigmas m with
  | [], _ | _, [] =>
      init_multimode m (Some b) r_min r_max = inl IndexError
  | _ :: _, _ :: _ =>
      match b with
      | BinsEdges _ =>
          init_multimode m (Some b) r_min r_max = inl UnboundLocalError
      | BinsInt _ =>
          (bracket_complete r_min r_max
           /\ init_multimode m (Some b) r_min r_max = inl UnboundLocalError)
          \/ (one_bound_only r_min r_max
              /\ init_multimode m (Some b) r_min r_max = inl TypeError)
      end
  end.
Proof.
  destruct (mus m) as [|mu0 mus'] eqn:Hm;
    [unfold init_multimode, getitem; rewrite Hm; destruct (sigmas m);
     reflexivity|].
  destruct (sigmas m) as [|s0 sigmas'] eqn:Hs;
    [unfold init_multimode, getitem; rewrite Hm, Hs; reflexivity|].
  destruct b as [n|es].
  - destruct (bounds_cases r_min r_max) as [[Hc _]|[Ho _]].
    + left. split; [exact Hc|].
      apply (init_multimode_unbound m n r_min r_max _ _ _ _ Hm Hs Hc).
    + right. split; [exact Ho|].
      unfold init_multimode, getitem, getlast, edges. rewrite Hm, Hs.
      cbn [nth_error bind ret].
      rewrite (log_bracket_one_bound _ _ _ _ Ho). reflexivity.
  - unfold init_multimode, getitem, getlast, edges. rewrite Hm, Hs.
    reflexivity.
Qed.

End ParametricOutcome.

(** X5.  Outcome of a construction from a [Lognorm] with an integer bin
    count: an object exactly when the bounds are both falsy or both supplied;
    [TypeError] exactly when one bound is [None] and the other is truthy; no
    other exception is raised. *)
Theorem lognorm_int_bins_outcome :
  forall (A : Type) (F : PyFloat A) species (l : Lognorm A) kappa rho mw
         (n : nat) r_min r_max,
    ((exists s,
         AerosolSpecies_init species (DLognorm l) kappa rho mw
           (Some (BinsInt n)) r_min r_max = inr s)
     <-> bracket_complete r_min r_max)
    /\ (AerosolSpecies_init species (DLognorm l) kappa rho mw
          (Some (BinsInt n)) r_min r_max = inl TypeError
        <-> one_bound_only r_min r_max)
    /\ (forall e,
          AerosolSpecies_init species (DLognorm l) kappa rho mw
            (Some (BinsInt n)) r_min r_max = inl e ->
          e = TypeError).
Proof.
  intros A F species l kappa rho mw n r_min r_max.
  destruct (bounds_cases r_min r_max) as [[Hc Hno]|[Ho Hnc]].
  - destruct (log_bracket_complete (mu l / (c10 * sigma l))%py
                (mu l * c10 * sigma l)%py r_min r_max Hc) as (lr & rr & Hb).
    pose proof (AerosolSpecies_init_lognorm species l kappa rho mw
                  (BinsInt n) r_min r_max _
                  (edges_of_bracket _ _ n _ _ _ _ Hb)) as Hs.
    rewrite Hs. repeat split; try (intros; discriminate).
    + intros _. exact Hc.
    + intros _. eexists. reflexivity.
    + intros Ho. contradiction.
  - assert (He : AerosolSpecies_init species (DLognorm l) kappa rho mw
                   (Some (BinsInt n)) r_min r_max = inl TypeError).
    { apply AerosolSpecies_init_raises.
      apply init_lognorm_one_bound. exact Ho. }
    rewrite He. repeat split; try (intros; discriminate).
    + intros [s Hs]. discriminate Hs.
    + intros Hc. contradiction.
    + intros _. exact Ho.
    + intros e H. congruence.
Qed.

(** X6.  Outcome of a construction from a [MultiModeLognorm] with [bins]
    given: [IndexError] exactly when the list of means or of deviations is
    empty; otherwise [TypeError] exactly when the bin count is an integer and
    one bound is [None] while the other is truthy; otherwise
    [UnboundLocalError], that is for a list of edges, or for an integer count
    with bounds both falsy or both supplied. *)
Theorem multimode_outcome :
  forall (A : Type) (F : PyFloat A) species (m : MultiModeLognorm A)
         kappa rho mw (b : bins_arg A) r_min r_max,
    (AerosolSpecies_init species (DMultiMode m) kappa rho mw (Some b)
       r_min r_max = inl IndexError
     <-> mus m = [] \/ sigmas m = [])
    /\ (AerosolSpecies_init species (DMultiMode m) kappa rho mw (Some b)
          r_min r_max = inl TypeError
        <-> mus m <> [] /\ sigmas m <> []
            /\ (exists n, b = BinsInt n) /\ one_bound_only r_min r_max)
    /\ (AerosolSpecies_init species (DMultiMode m) kappa rho mw (Some b)
          r_min r_max = inl UnboundLocalError
        <-> mus m <> [] /\ sigmas m <> []
            /\ ((exists es, b = BinsEdges es)
                \/ bracket_complete r_min r_max)).
Proof.
  intros A F species m kappa rho mw b r_min r_max.
  rewrite !AerosolSpecies_init_raises.
  pose proof (init_multimode_cases m b r_min r_max) as Hc.
  pose proof (bounds_cases r_min r_max) as Hb.
  destruct (mus m) as [|mu0 mus']; [|destruct (sigmas m) as [|s0 sigmas']].
  - rewrite Hc. naive_solver.
  - rewrite Hc. naive_solver.
  - destruct b as [n|es].
    + destruct Hc as [[Hcomp Hc]|[Hone Hc]]; rewrite Hc;
        destruct Hb as [[_ Hno]|[_ Hnc]]; try contradiction; naive_solver.
    + rewrite Hc. naive_solver.
Qed.

(** ** The single-mode branch over exact arithmetic: every edge list *)

Section LognormReal.
Local Open Scope R_scope.

Lemma increasing_nth (l : list R) (i : nat) :
  increasing l -> (S i < length l)%nat -> nth i l 0 < nth (S i) l 0.
Proof.
  intros Hl. revert i. induction Hl as [|x l Hl IH Hx]; intros i Hi;
    cbn [length] in Hi; [lia|].
  destruct i as [|i].
  - destruct l as [|y l]; cbn [length] in Hi; [lia|].
    cbn [nth]. apply Forall_inv in Hx. exact Hx.
  - cbn [nth]. apply IH. lia.
Qed.

Lemma positive_nth (l : list R) (i : nat) :
  Forall (Rlt 0) l -> (i < length l)%nat -> 0 < nth i l 0.
Proof.
  intros Hl Hi. rewrite List.Forall_forall in Hl. apply Hl, nth_In, Hi.
Qed.

Lemma sqrt_between (a b : R) : 0 < a -> a < b -> a < R_sqrt.sqrt (a * b) < b.
Proof.
  intros Ha Hab. split.
  - apply Rle_lt_trans with (R_sqrt.sqrt (a * a)).
    + rewrite sqrt_square by lra. lra.
    + apply sqrt_lt_1_alt. nra.
  - apply Rlt_le_trans with (R_sqrt.sqrt (b * b)).
    + apply sqrt_lt_1_alt. nra.
    + rewrite sqrt_square by lra. lra.
Qed.

Lemma fold_left_Rplus_acc (l : list R) (acc : R) :
  fold_left Rplus l acc = acc + fold_left Rplus l 0.
Proof.
  revert acc. induction l as [|x l IH]; intros acc; cbn [fold_left]; [ring|].
  rewrite (IH (acc + x)), (IH (0 + x)). ring.
Qed.

(** The widths of adjacent bins add up to the distance between the outer
    edges. *)
Lemma widths_telescope (k : R) (l : list R) :
  fold_left Rplus
    (map (fun ab : R * R => k * (snd ab - fst ab)) (adjacent l)) 0
    = k * (List.last l 0 - hd 0 l).
Proof.
  induction l as [|x [|y l] IH].
  - cbn. ring.
  - cbn. ring.
  - rewrite adjacent_cons2. cbn [map fold_left fst snd].
    rewrite fold_left_Rplus_acc, IH.
    change (List.last (x :: y :: l) 0) with (List.last (y :: l) 0).
    cbn [hd]. ring.
Qed.

End LognormReal.

(** X7.  The constructor and [dist_to_conc] agree: in exact arithmetic the
    concentration of each bin of an object built from a [Lognorm] is 1e6
    times the trapezoid estimate of [dist_to_conc] over that bin. *)
Theorem lognorm_Nis_is_dist_to_conc :
  forall species (l : Lognorm R) kappa rho mw bins r_min r_max
         (s : AerosolSpecies R),
    AerosolSpecies_init species (DLognorm l) kappa rho mw bins r_min r_max
      = inr s ->
    forall i : nat, (i < nr s)%nat ->
      nth i (Nis s) 0%R =
        (dist_to_conc l (nth i (rs s) 0) (nth (S i) (rs s) 0) "trapezoid"
         * 1e6)%R.
Proof.
  intros species l kappa rho mw bins r_min r_max s Hs i Hi.
  destruct (AerosolSpecies_init_lognorm_inv _ _ _ _ _ _ _ _ _ Hs)
    as (b & es & _ & _ & ->).
  cbn [nr rs Nis] in *.
  rewrite (nth_indep _ 0%R
             (c0_5 * (c0 - c0) * (pdf l c0 + pdf l c0) * c1e6)%py)
    by (rewrite length_map, length_trapezoids; assumption).
  rewrite (map_nth (fun x : R => (x * c1e6)%py) (trapezoids l es)
             (c0_5 * (c0 - c0) * (pdf l c0 + pdf l c0))%py i).
  rewrite nth_trapezoids by lia.
  unfold dist_to_conc. eval_rule. exact_arith. ring.
Qed.

(** The sulfate over the edges 0.01, 0.1, 1. *)
Lemma lognorm_Nis_is_dist_to_conc_witness :
  exists s : AerosolSpecies R,
    AerosolSpecies_init "(NH4)2SO4" (DLognorm sulfate) 0.6%R None None
      (Some (BinsEdges [0.01; 0.1; 1]%R)) None None = inr s
    /\ forall i : nat, (i < nr s)%nat ->
        nth i (Nis s) 0%R =
          (dist_to_conc sulfate (nth i (rs s) 0) (nth (S i) (rs s) 0)
             "trapezoid" * 1e6)%R.
Proof.
  eexists. split.
  - apply AerosolSpecies_init_lognorm. reflexivity.
  - apply (lognorm_Nis_is_dist_to_conc "(NH4)2SO4"%string sulfate
             0.6%R None None (Some (BinsEdges [0.01; 0.1; 1]%R)) None None).
    apply AerosolSpecies_init_lognorm. reflexivity.
Defined.

(** X8.  Over positive, strictly increasing edges (computed or supplied) and
    a non-negative density, in exact arithmetic: every [Nis[i]] is
    non-negative, every [r_drys[i]] is positive and lies strictly between its
    two edges converted to meters. *)
Theorem lognorm_bins_well_formed :
  forall species (l : Lognorm R) kappa rho mw bins r_min r_max
         (s : AerosolSpecies R),
    AerosolSpecies_init species (DLognorm l) kappa rho mw bins r_min r_max
      = inr s ->
    increasing (rs s) -> Forall (Rlt 0) (rs s) ->
    (forall x : R, (0 <= pdf l x)%R) ->
    forall i : nat, (i < nr s)%nat ->
      (0 <= nth i (Nis s) 0)%R
      /\ (0 < nth i (r_drys s) 0)%R
      /\ (nth i (rs s) 0 * 1e-6 < nth i (r_drys s) 0
          < nth (S i) (rs s) 0 * 1e-6)%R.
Proof.
  intros species l kappa rho mw bins r_min r_max s Hs Hinc Hpos Hpdf i Hi.
  destruct (AerosolSpecies_init_lognorm_inv _ _ _ _ _ _ _ _ _ Hs)
    as (b & es & _ & _ & ->).
  cbn [nr rs Nis r_drys] in *.
  assert (Hlt : (nth i es 0 < nth (S i) es 0)%R)
    by (apply increasing_nth; [assumption|lia]).
  assert (Ha : (0 < nth i es 0)%R) by (apply positive_nth; [assumption|lia]).
  rewrite (nth_indep _ 0%R
             (c0_5 * (c0 - c0) * (pdf l c0 + pdf l c0) * c1e6)%py)
    by (rewrite length_map, length_trapezoids; assumption).
  rewrite (map_nth (fun x : R => (x * c1e6)%py) (trapezoids l es)
             (c0_5 * (c0 - c0) * (pdf l c0 + pdf l c0))%py i).
  rewrite nth_trapezoids by lia.
  rewrite (nth_indep (map _ (mids_of es)) 0%R (sqrt (c0 * c0) * c1e_6)%py)
    by (rewrite length_map, length_mids_of; assumption).
  rewrite (map_nth (fun x : R => (x * c1e_6)%py) (mids_of es)
             (sqrt (c0 * c0)%py) i).
  rewrite nth_mids_of by lia.
  exact_arith.
  pose proof (sqrt_between _ _ Ha Hlt) as [Hs1 Hs2].
  pose proof (Hpdf (nth i es 0%R)) as Hp1.
  pose proof (Hpdf (nth (S i) es 0%R)) as Hp2.
  repeat split; try nra.
Qed.

(** A non-negative (here constant) density over the edges 0.01, 0.1, 1. *)
Lemma lognorm_bins_well_formed_witness :
  exists s : AerosolSpecies R,
    AerosolSpecies_init "flat"
      (DLognorm {| mu := 0.05%R; sigma := 2%R; lognorm_pdf := fun _ => 2%R |})
      0.6%R None None (Some (BinsEdges [0.01; 0.1; 1]%R)) None None = inr s
    /\ forall i : nat, (i < nr s)%nat ->
        (0 <= nth i (Nis s) 0)%R
        /\ (0 < nth i (r_drys s) 0)%R
        /\ (nth i (rs s) 0 * 1e-6 < nth i (r_drys s) 0
            < nth (S i) (rs s) 0 * 1e-6)%R.
Proof.
  eexists. split.
  - apply AerosolSpecies_init_lognorm. reflexivity.
  - apply (lognorm_bins_well_formed "flat"%string
             {| mu := 0.05%R; sigma := 2%R; lognorm_pdf := fun _ => 2%R |}
             0.6%R None None (Some (BinsEdges [0.01; 0.1; 1]%R)) None None).
    + apply AerosolSpecies_init_lognorm. reflexivity.
    + cbn [rs]. repeat constructor; lra.
    + cbn [rs]. repeat constructor; lra.
    + intros x. cbn. lra.
Defined.

(** X9.  Composite trapezoid rule on a constant density [c], in exact
    arithmetic: whatever the edges, the concentrations of an object built
    from a [Lognorm] add up to [1e6 * c * (rs[-1] - rs[0])] (0 when there is
    no edge). *)
Theorem lognorm_total_on_constant_density :
  forall species (l : Lognorm R) kappa rho mw bins r_min r_max
         (s : AerosolSpecies R) (c : R),
    AerosolSpecies_init species (DLognorm l) kappa rho mw bins r_min r_max
      = inr s ->
    (forall x : R, pdf l x = c) ->
    np_sum (Nis s) = (1e6 * c * (List.last (rs s) 0 - hd 0 (rs s)))%R.
Proof.
  intros species l kappa rho mw bins r_min r_max s c Hs Hpdf.
  destruct (AerosolSpecies_init_lognorm_inv _ _ _ _ _ _ _ _ _ Hs)
    as (b & es & _ & _ & ->).
  cbn [rs Nis]. rewrite np_sum_scaled. unfold np_sum, trapezoids.
  rewrite (map_ext _ (fun ab : R * R => c * (snd ab - fst ab))%R).
  - exact_arith. rewrite widths_telescope. ring.
  - intros [a b']. cbn [fst snd]. rewrite !Hpdf. exact_arith. lra.
Qed.

(** The constant density 2 over the edges 0.01, 0.1, 1. *)
Lemma lognorm_total_on_constant_density_witness :
  exists s : AerosolSpecies R,
    AerosolSpecies_init "flat"
      (DLognorm {| mu := 0.05%R; sigma := 2%R; lognorm_pdf := fun _ => 2%R |})
      0.6%R None None (Some (BinsEdges [0.01; 0.1; 1]%R)) None None = inr s
    /\ np_sum (Nis s) = (1e6 * 2 * (List.last (rs s) 0 - hd 0 (rs s)))%R.
Proof.
  eexists. split.
  - apply AerosolSpecies_init_lognorm. reflexivity.
  - apply (lognorm_total_on_constant_density "flat"%string
             {| mu := 0.05%R; sigma := 2%R; lognorm_pdf := fun _ => 2%R |}
             0.6%R None None (Some (BinsEdges [0.01; 0.1; 1]%R)) None None).
    + apply AerosolSpecies_init_lognorm. reflexivity.
    + intros x. reflexivity.
Defined.

(** ** Geometry of the computed edges, in exact arithmetic *)

Section EdgeGeometry.
Local Open Scope R_scope.

Lemma nth_log_uniform_edges (lo hi : R) (n i : nat) :
  (i <= n)%nat ->
  nth i (log_uniform_edges lo hi n) 0 = lo * Rpower (hi / lo) (INR i / INR n).
Proof.
  intros Hi. unfold log_uniform_edges.
  rewrite (nth_indep _ 0
             ((fun j => lo * Rpower (hi / lo) (INR j / INR n)) 0%nat))
    by (rewrite length_map, length_seq; lia).
  rewrite (map_nth (fun j => lo * Rpower (hi / lo) (INR j / INR n))
             (seq 0 (S n)) 0%nat i).
  rewrite seq_nth by lia. reflexivity.
Qed.

Lemma log_uniform_edges_positive (lo hi : R) (n : nat) :
  0 < lo -> Forall (Rlt 0) (log_uniform_edges lo hi n).
Proof.
  intros Hlo. apply List.Forall_forall. intros x Hx.
  unfold log_uniform_edges in Hx.
  apply List.in_map_iff in Hx as (j & <- & _).
  apply Rmult_lt_0_compat; [assumption|]. unfold Rpower. apply exp_pos.
Qed.

Lemma log_uniform_edges_geometry (lo hi : R) (n : nat) :
  0 < lo -> 0 < hi ->
  nth 0 (log_uniform_edges lo hi n) 0 = lo
  /\ ((1 <= n)%nat -> nth n (log_uniform_edges lo hi n) 0 = hi)
  /\ (forall i : nat, (i < n)%nat ->
        nth (S i) (log_uniform_edges lo hi n) 0 =
          nth i (log_uniform_edges lo hi n) 0 * Rpower (hi / lo) (/ INR n))
  /\ (forall k : nat, (1 <= k)%nat -> n = (2 * k)%nat ->
        nth k (log_uniform_edges lo hi n) 0 = R_sqrt.sqrt (lo * hi)).
Proof.
  intros Hlo Hhi.
  assert (Hq : 0 < hi / lo) by (apply Rdiv_lt_0_compat; assumption).
  repeat split.
  - rewrite nth_log_uniform_edges by lia. cbn [INR].
    unfold Rdiv at 2. rewrite Rmult_0_l, Rpower_O by assumption. ring.
  - intros Hn. rewrite nth_log_uniform_edges by lia.
    assert (Hn' : 0 < INR n) by (apply lt_0_INR; lia).
    replace (INR n / INR n) with 1 by (field; lra).
    rewrite Rpower_1 by assumption. field. lra.
  - intros i Hi. rewrite !nth_log_uniform_edges by lia.
    assert (Hn' : 0 < INR n) by (apply lt_0_INR; lia).
    rewrite Rmult_assoc, <- Rpower_plus. f_equal. f_equal.
    rewrite S_INR. field. lra.
  - intros k Hk ->. rewrite nth_log_uniform_edges by lia.
    assert (Hk' : 0 < INR k) by (apply lt_0_INR; lia).
    replace (INR k / INR (2 * k)) with (/ 2)
      by (rewrite mult_INR; cbn [INR]; field; lra).
    rewrite Rpower_sqrt by assumption.
    replace (lo * hi) with (lo * lo * (hi / lo)) by (field; lra).
    rewrite sqrt_mult by nra. rewrite sqrt_square by lra. reflexivity.
Qed.

End EdgeGeometry.

(** X10.  Geometry of the edges computed from an integer bin count [n], in
    exact arithmetic.  With the default bracket ([mu > 0], [sigma > 0], both
    bounds falsy) the edges are positive, start at [mu/(10*sigma)], end at
    [mu*10*sigma] when [n >= 1], grow by the constant factor
    [(hi/lo)^(1/n)] from one edge to the next, and for an even [n >= 2] the
    middle edge is [mu] itself.  With positive bounds [r_min], [r_max] both
    supplied they are positive, start at [r_min], end at [r_max] and grow by
    the constant factor [(r_max/r_min)^(1/n)]. *)
Theorem lognorm_edges_geometry :
  (forall species (l : Lognorm R) kappa rho mw (n : nat) r_min r_max,
      (0 < mu l)%R -> (0 < sigma l)%R ->
      py_not r_min = true -> py_not r_max = true ->
      exists s : AerosolSpecies R,
        AerosolSpecies_init species (DLognorm l) kappa rho mw
          (Some (BinsInt n)) r_min r_max = inr s
        /\ Forall (Rlt 0) (rs s)
        /\ nth 0 (rs s) 0%R = (mu l / (10 * sigma l))%R
        /\ ((1 <= n)%nat -> nth n (rs s) 0%R = (mu l * 10 * sigma l)%R)
        /\ (forall i : nat, (i < n)%nat ->
              nth (S i) (rs s) 0%R =
                (nth i (rs s) 0
                 * Rpower ((mu l * 10 * sigma l) / (mu l / (10 * sigma l)))
                     (/ INR n))%R)
        /\ (forall k : nat, (1 <= k)%nat -> n = (2 * k)%nat ->
              nth k (rs s) 0%R = mu l))
  /\ (forall species (l : Lognorm R) kappa rho mw (n : nat) (a b : R),
      (0 < a)%R -> (0 < b)%R ->
      exists s : AerosolSpecies R,
        AerosolSpecies_init species (DLognorm l) kappa rho mw
          (Some (BinsInt n)) (Some a) (Some b) = inr s
        /\ Forall (Rlt 0) (rs s)
        /\ nth 0 (rs s) 0%R = a
        /\ ((1 <= n)%nat -> nth n (rs s) 0%R = b)
        /\ (forall i : nat, (i < n)%nat ->
              nth (S i) (rs s) 0%R =
                (nth i (rs s) 0 * Rpower (b / a) (/ INR n))%R)).
Proof.
  split.
  - intros species l kappa rho mw n r_min r_max Hmu Hsigma H1 H2.
    assert (Hlo : (0 < mu l / (10 * sigma l))%R)
      by (apply Rdiv_lt_0_compat; lra).
    assert (Hhi : (0 < mu l * 10 * sigma l)%R) by nra.
    eexists; split;
      [apply AerosolSpecies_init_lognorm, edges_of_bracket;
       apply log_bracket_default; assumption|].
    cbn [rs].
    change (logspace _ _ (S n))
      with (logspace (log10 (mu l / (10 * sigma l))%R)
              (log10 (mu l * 10 * sigma l)%R) (S n)).
    rewrite (logspace_log_uniform _ _ n Hlo Hhi).
    destruct (log_uniform_edges_geometry _ _ n Hlo Hhi)
      as (H0 & Hn & Hratio & Hmid).
    repeat split; try assumption.
    + apply log_uniform_edges_positive. assumption.
    + intros k Hk Hnk. rewrite (Hmid k Hk Hnk).
      replace (mu l / (10 * sigma l) * (mu l * 10 * sigma l))%R
        with (mu l * mu l)%R by (field; lra).
      apply sqrt_square. lra.
  - intros species l kappa rho mw n a b Ha Hb.
    eexists; split;
      [apply AerosolSpecies_init_lognorm, edges_of_bracket;
       apply log_bracket_explicit;
       rewrite (is_zero_R_false a) by lra; reflexivity|].
    cbn [rs]. rewrite (logspace_log_uniform _ _ n Ha Hb).
    destruct (log_uniform_edges_geometry _ _ n Ha Hb)
      as (H0 & Hn & Hratio & _).
    repeat split; try assumption.
    apply log_uniform_edges_positive. assumption.
Qed.

(** The sulfate with 200 bins: the edges run from 0.0025 to 1 and the
    hundredth edge is 0.05. *)
Lemma lognorm_edges_geometry_witness :
  (exists s : AerosolSpecies R,
      AerosolSpecies_init "(NH4)2SO4" (DLognorm sulfate) 0.6%R None None
        (Some (BinsInt 200)) None None = inr s
      /\ nth 0 (rs s) 0%R = (0.05 / (10 * 2))%R
      /\ nth 200 (rs s) 0%R = (0.05 * 10 * 2)%R
      /\ nth 100 (rs s) 0%R = 0.05%R)
  /\ (exists s : AerosolSpecies R,
      AerosolSpecies_init "(NH4)2SO4" (DLognorm sulfate) 0.6%R None None
        (Some (BinsInt 200)) (Some 0.01%R) (Some 1%R) = inr s
      /\ nth 0 (rs s) 0%R = 0.01%R /\ nth 200 (rs s) 0%R = 1%R).
Proof.
  destruct lognorm_edges_geometry as (Hdefault & Hexplicit).
  split.
  - destruct (Hdefault "(NH4)2SO4"%string sulfate 0.6%R None None 200%nat
                None None)
      as (s & Hs & _ & H0 & Hn & _ & Hmid).
    + cbn [mu sulfate]. lra.
    + cbn [sigma sulfate]. lra.
    + reflexivity.
    + reflexivity.
    + exists s. repeat split; try assumption.
      * apply Hn. lia.
      * apply (Hmid 100%nat); lia.
  - destruct (Hexplicit "(NH4)2SO4"%string sulfate 0.6%R None None 200%nat
                0.01%R 1%R)
      as (s & Hs & _ & H0 & Hn & _).
    + lra.
    + lra.
    + exists s. repeat split; try assumption. apply Hn. lia.
Defined.

(** X11.  The bins do not depend on the density, the concentrations depend
    on it linearly (exact arithmetic): two [Lognorm] objects with the same
    [mu] and [sigma] give the same [rs], [r_drys] and [nr], and if the
    density of the second is [c] times that of the first, so is each of its
    concentrations. *)
Theorem discretisation_and_density :
  forall species (l1 l2 : Lognorm R) kappa rho mw bins r_min r_max
         (s1 : AerosolSpecies R) (c : R),
    mu l1 = mu l2 -> sigma l1 = sigma l2 ->
    (forall x : R, pdf l2 x = (c * pdf l1 x)%R) ->
    AerosolSpecies_init species (DLognorm l1) kappa rho mw bins r_min r_max
      = inr s1 ->
    exists s2 : AerosolSpecies R,
      AerosolSpecies_init species (DLognorm l2) kappa rho mw bins r_min r_max
        = inr s2
      /\ rs s2 = rs s1 /\ r_drys s2 = r_drys s1 /\ nr s2 = nr s1
      /\ Nis s2 = map (fun x => (c * x)%R) (Nis s1).
Proof.
  intros species l1 l2 kappa rho mw bins r_min r_max s1 c Hmu Hsigma Hpdf Hs.
  destruct (AerosolSpecies_init_lognorm_inv _ _ _ _ _ _ _ _ _ Hs)
    as (b & es & -> & He & ->).
  rewrite Hmu, Hsigma in He.
  eexists; split; [apply (AerosolSpecies_init_lognorm _ l2 _ _ _ _ _ _ _ He)|].
  cbn [rs r_drys nr Nis]. repeat split.
  unfold trapezoids. rewrite !map_map. apply map_ext. intros [a b'].
  cbn [fst snd]. rewrite !Hpdf. exact_arith. ring.
Qed.

(** Doubling the total number of the sulfate doubles every concentration. *)
Lemma discretisation_and_density_witness :
  exists s1 s2 : AerosolSpecies R,
    AerosolSpecies_init "(NH4)2SO4" (DLognorm sulfate) 0.6%R None None
      (Some (BinsEdges [0.01; 0.1; 1]%R)) None None = inr s1
    /\ AerosolSpecies_init "(NH4)2SO4"
         (DLognorm {| mu := 0.05%R; sigma := 2%R;
                      lognorm_pdf := fun x =>
                        (2 * lognormal_density 0.05 2 300 x)%R |})
         0.6%R None None (Some (BinsEdges [0.01; 0.1; 1]%R)) None None
       = inr s2
    /\ rs s2 = rs s1 /\ r_drys s2 = r_drys s1 /\ nr s2 = nr s1
    /\ Nis s2 = map (fun x => (2 * x)%R) (Nis s1).
Proof.
  pose proof (AerosolSpecies_init_lognorm "(NH4)2SO4"%string sulfate 0.6%R
                None None (BinsEdges [0.01; 0.1; 1]%R) None None
                [0.01; 0.1; 1]%R eq_refl) as H1.
  destruct (discretisation_and_density "(NH4)2SO4"%string sulfate
              {| mu := 0.05%R; sigma := 2%R;
                 lognorm_pdf := fun x =>
                   (2 * lognormal_density 0.05 2 300 x)%R |}
              0.6%R None None (Some (BinsEdges [0.01; 0.1; 1]%R)) None None
              _ 2%R eq_refl eq_refl (fun x => eq_refl) H1)
    as (s2 & Hs2 & Hrest).
  eexists. exists s2. split; [exact H1|]. split; assumption.
Defined.

(** ** The driver script against the constructor *)

(** X12.  [make_ammonium_sulfate] bins by hand exactly as the constructor
    would: for a [Lognorm] constructor that stores [mu] and [sigma], the
    [rs], [r_drys], [Nis] and [nr] it passes on are, in exact arithmetic,
    those of [AerosolSpecies(species, distribution, kappa, bins=50)] built
    from the same distribution; there are 51 edges and 50 bins. *)
Theorem make_ammonium_sulfate_matches_constructor :
  forall (Lognorm_new : R -> R -> R -> Lognorm R) (epsilon N0 kappa : R)
         (rho mw : option R),
    (forall m s n, mu (Lognorm_new m s n) = m
                   /\ sigma (Lognorm_new m s n) = s) ->
    exists s : AerosolSpecies R,
      AerosolSpecies_init
        (NenesGccPlots.species
           (NenesGccPlots.make_ammonium_sulfate Lognorm_new epsilon N0))
        (DLognorm
           (NenesGccPlots.distribution
              (NenesGccPlots.make_ammonium_sulfate Lognorm_new epsilon N0)))
        kappa rho mw (Some (BinsInt 50)) None None = inr s
      /\ rs s = NenesGccPlots.rs
                  (NenesGccPlots.make_ammonium_sulfate Lognorm_new epsilon N0)
      /\ r_drys s = NenesGccPlots.r_drys
                      (NenesGccPlots.make_ammonium_sulfate Lognorm_new
                         epsilon N0)
      /\ Nis s = NenesGccPlots.Nis
                   (NenesGccPlots.make_ammonium_sulfate Lognorm_new epsilon N0)
      /\ nr s = NenesGccPlots.nr
                  (NenesGccPlots.make_ammonium_sulfate Lognorm_new epsilon N0)
      /\ nr s = 50%nat /\ length (rs s) = 51%nat.
Proof.
  intros Lognorm_new epsilon N0 kappa rho mw Hnew.
  destruct (Hnew 0.05%R 2.0%R N0) as [Hmu Hsigma].
  unfold NenesGccPlots.make_ammonium_sulfate.
  cbn [NenesGccPlots.species NenesGccPlots.distribution NenesGccPlots.rs
       NenesGccPlots.r_drys NenesGccPlots.Nis NenesGccPlots.nr].
  set (dist := Lognorm_new 0.05%R 2.0%R N0) in *.
  set (es := logspace (log10 (0.05 / (2.0 * 10))%R)
               (log10 (0.05 * 2.0 * 10)%R) (50 + 1)).
  assert (Hes : length es = 51%nat) by (apply length_logspace).
  assert (He : edges (mu dist / (c10 * sigma dist))%py
                 (mu dist * c10 * sigma dist)%py (BinsInt 50) None None
               = ret es).
  { rewrite Hmu, Hsigma. unfold edges, log_bracket. cbn [py_not andb bind ret fst snd].
    unfold es. f_equal. f_equal; f_equal; exact_arith; lra. }
  eexists; split; [apply (AerosolSpecies_init_lognorm _ dist _ _ _ _ _ _ _ He)|].
  cbn [rs r_drys Nis nr].
  rewrite !skipn_O.
  rewrite !firstn_all2
    by (rewrite length_map, length_adjacent, Hes; cbn; lia).
  rewrite length_map, length_map, length_adjacent, Hes.
  repeat split.
Qed.

(** With a constructor that stores its arguments. *)
Lemma make_ammonium_sulfate_matches_constructor_witness :
  exists s : AerosolSpecies R,
    AerosolSpecies_init "(NH4)2SO4" (DLognorm (Lognorm_of 0.05 2.0 200))
      0.6%R None None (Some (BinsInt 50)) None None = inr s
    /\ rs s = NenesGccPlots.rs
                (NenesGccPlots.make_ammonium_sulfate Lognorm_of 0.3 200)
    /\ r_drys s = NenesGccPlots.r_drys
                    (NenesGccPlots.make_ammonium_sulfate Lognorm_of 0.3 200)
    /\ Nis s = NenesGccPlots.Nis
                 (NenesGccPlots.make_ammonium_sulfate Lognorm_of 0.3 200)
    /\ nr s = NenesGccPlots.nr
                (NenesGccPlots.make_ammonium_sulfate Lognorm_of 0.3 200)
    /\ nr s = 50%nat /\ length (rs s) = 51%nat.
Proof.
  apply (make_ammonium_sulfate_matches_constructor Lognorm_of 0.3%R 200%R
           0.6%R None None).
  intros m s n. split; reflexivity.
Defined.

(** ** The integral of a cubic *)

Section CubicIntegral.
Local Open Scope R_scope.

Lemma monomial_derivative (c : R) (n : nat) (x : R) :
  derivable_pt_lim (fun y => c * y ^ n) x (c * (INR n * x ^ pred n)).
Proof.
  apply (derivable_pt_lim_scal (fun y => y ^ n) c x).
  apply derivable_pt_lim_pow.
Qed.

(** [cubic_integral] is the increment of an antiderivative of [cubic]. *)
Lemma cubic_integral_antiderivative (c3 c2 c1 k : R) :
  (forall x,
      derivable_pt_lim (fun y => cubic_integral c3 c2 c1 k 0 y) x
        (cubic c3 c2 c1 k x))
  /\ forall a b,
      cubic_integral c3 c2 c1 k a b =
        cubic_integral c3 c2 c1 k 0 b - cubic_integral c3 c2 c1 k 0 a.
Proof.
  split.
  - intros x.
    pose proof (derivable_pt_lim_plus _ _ x _ _
      (derivable_pt_lim_plus _ _ x _ _
        (derivable_pt_lim_plus _ _ x _ _
           (monomial_derivative (c3 / 4) 4 x)
           (monomial_derivative (c2 / 3) 3 x))
        (monomial_derivative (c1 / 2) 2 x))
      (monomial_derivative k 1 x)) as Hd.
    unfold plus_fct in Hd.
    replace (cubic c3 c2 c1 k x) with
      (c3 / 4 * (INR 4 * x ^ Init.Nat.pred 4)
       + c2 / 3 * (INR 3 * x ^ Init.Nat.pred 3)
       + c1 / 2 * (INR 2 * x ^ Init.Nat.pred 2)
       + k * (INR 1 * x ^ Init.Nat.pred 1))
      by (unfold cubic; simpl; field).
    eapply derivable_pt_lim_ext; [|exact Hd].
    intros y. unfold cubic_integral. simpl. field.
  - intros a b. unfold cubic_integral. field.
Qed.

End CubicIntegral.
